(** * pumpkin-reminder: the reminder store and the reminder cog

    A shallow embedding of [reminder/database.py] (the [ReminderItem] table
    and its operations) and of the parts of [reminder/module.py] that drive
    it (the dispatcher loop, delivery, listing and the reschedule / delete
    confirmation flows), followed by the properties of the reminder
    lifecycle.

    Conventions.
    - A [datetime] is an integer count of microseconds (the resolution of
      Python's [datetime]); only its order and [timedelta] addition are used.
    - The SQLAlchemy session is explicit state: the rows of the table in the
      order the backend scans them, and the autoincrement counter.
    - A coroutine is a computation in the monad [M]: it threads the session
      and the list of observable effects, and either returns or raises.
    - What the cog obtains from Discord, the clock, [pie] and the Python
      runtime is collected in a [World]. *)

From Stdlib Require Import ZArith List String Ascii Bool Lia.
From Stdlib Require Import Sorting.Sorted Sorting.Permutation.
Import ListNotations.
Local Open Scope string_scope.
Local Open Scope list_scope.
Local Open Scope Z_scope.

(** ** Python values *)

Definition datetime := Z.

(** [timedelta(seconds=n)] added to a [datetime]. *)
Definition timedelta_seconds (n : Z) : Z := n * 1000000.

Inductive exn : Type :=
| ValueError
| KeyError
| IndexError
| NameError
| AttributeError
| ParserError
| TimeoutError.

Inductive result (A : Type) : Type :=
| Ok (a : A)
| Raise (e : exn).
Arguments Ok {A} a.
Arguments Raise {A} e.

(** ** reminder/database.py *)

Module Database.

(** [class ReminderStatus(enum.Enum)], members in definition order. *)
Inductive ReminderStatus : Type := WAITING | REMINDED | FAILED.

Definition ReminderStatus_members : list ReminderStatus :=
  [WAITING; REMINDED; FAILED].

Definition name (s : ReminderStatus) : string :=
  match s with
  | WAITING => "WAITING"
  | REMINDED => "REMINDED"
  | FAILED => "FAILED"
  end.

Definition status_eqb (a b : ReminderStatus) : bool :=
  match a, b with
  | WAITING, WAITING | REMINDED, REMINDED | FAILED, FAILED => true
  | _, _ => false
  end.

(** [", ".join(xs)] *)
Fixpoint join (sep : string) (xs : list string) : string :=
  match xs with
  | [] => ""
  | [x] => x
  | x :: rest => (x ++ sep ++ join sep rest)%string
  end.

(** [ReminderStatus.str_list()] *)
Definition str_list : string := join ", " (map name ReminderStatus_members).

(** [ReminderStatus[key]]: lookup of a member by name, [KeyError] when the
    enumeration has no member of that name. *)
Definition ReminderStatus_getitem (key : string) : result ReminderStatus :=
  match find (fun e => String.eqb (name e) key) ReminderStatus_members with
  | Some e => Ok e
  | None => Raise KeyError
  end.

(** A row of [reminder_reminder_reminderitem]. *)
Record ReminderItem : Type := mkItem {
  idx : Z;
  guild_id : Z;
  author_id : Z;
  remind_id : Z;
  permalink : string;
  message : option string;
  origin_date : datetime;
  remind_date : datetime;
  status : ReminderStatus
}.

Definition set_remind_date (d : datetime) (r : ReminderItem) : ReminderItem :=
  mkItem (idx r) (guild_id r) (author_id r) (remind_id r) (permalink r)
         (message r) (origin_date r) d (status r).

Definition set_status (s : ReminderStatus) (r : ReminderItem) : ReminderItem :=
  mkItem (idx r) (guild_id r) (author_id r) (remind_id r) (permalink r)
         (message r) (origin_date r) (remind_date r) s.

(** The table behind [session]: [rows] is the order in which the backend
    hands the rows to a query (SQL fixes none, so nothing ties it to [idx]),
    [next_idx] the next value of the autoincrement primary key. *)
Record Session : Type := mkSession {
  rows : list ReminderItem;
  next_idx : Z
}.

(** The keyword arguments of [get_all]; [None] is the Python default. *)
Record Filter : Type := mkFilter {
  f_guild_id : option Z;
  f_idx : option Z;
  f_remind_id : option Z;
  f_status : option ReminderStatus;
  f_min_origin_date : option datetime;
  f_max_origin_date : option datetime;
  f_min_remind_date : option datetime;
  f_max_remind_date : option datetime
}.

Definition no_filter : Filter :=
  mkFilter None None None None None None None None.

(** [if arg is not None: query = query.filter(...)] *)
Definition filter_if {A : Type} (arg : option A) (p : A -> ReminderItem -> bool)
    (query : list ReminderItem) : list ReminderItem :=
  match arg with
  | Some a => filter (p a) query
  | None => query
  end.

(** [query.order_by(ReminderItem.remind_date.desc())]: a stable insertion
    sort on the single key the code names; rows with equal [remind_date]
    keep the order the backend produced them in. *)
Fixpoint insert_desc (r : ReminderItem) (l : list ReminderItem)
    : list ReminderItem :=
  match l with
  | [] => [r]
  | h :: t =>
      if remind_date h <=? remind_date r then r :: h :: t
      else h :: insert_desc r t
  end.

Fixpoint order_by_remind_date_desc (l : list ReminderItem)
    : list ReminderItem :=
  match l with
  | [] => []
  | h :: t => insert_desc h (order_by_remind_date_desc t)
  end.

(** [ReminderItem.get_all], as a function of the table contents. *)
Definition get_all_rows (f : Filter) (table : list ReminderItem)
    : list ReminderItem :=
  let query := table in
  let query := filter_if (f_guild_id f) (fun g r => guild_id r =? g) query in
  let query := filter_if (f_idx f) (fun i r => idx r =? i) query in
  let query := filter_if (f_remind_id f) (fun u r => remind_id r =? u) query in
  let query := filter_if (f_status f) (fun s r => status_eqb (status r) s) query in
  let query := filter_if (f_min_origin_date f) (fun d r => d <? origin_date r) query in
  let query := filter_if (f_max_origin_date f) (fun d r => origin_date r <? d) query in
  let query := filter_if (f_min_remind_date f) (fun d r => d <? remind_date r) query in
  let query := filter_if (f_max_remind_date f) (fun d r => remind_date r <? d) query in
  order_by_remind_date_desc query.

(** [ReminderItem.add]: [now] is the reading of [datetime.now()] on line 75,
    which overwrites the [origin_date] argument before any use of it. *)
Definition add (now : datetime)
    (guild_id author_id remind_id : Z) (permalink : string)
    (message : option string) (origin_date remind_date : datetime)
    (s : Session) : result ReminderItem * Session :=
  let origin_date := now in
  if remind_date <? origin_date then (Raise ValueError, s)
  else
    let item := mkItem (next_idx s) guild_id author_id remind_id permalink
                       message origin_date remind_date WAITING in
    (Ok item, mkSession (rows s ++ [item]) (next_idx s + 1)).

(** An ORM object is the row with its primary key: an attribute assignment
    followed by [session.commit()] rewrites the rows that carry the key.
    Where the backend then holds a rewritten row in its scan order is not
    modelled (the row is kept where it was): what is proved about an
    update is stated by key and by membership, not by position. *)
Definition update_row (i : Z) (upd : ReminderItem -> ReminderItem)
    (s : Session) : Session :=
  mkSession (map (fun r => if idx r =? i then upd r else r) (rows s))
            (next_idx s).

(** [ReminderItem.reschedule(self, new_date)] *)
Definition reschedule (self : ReminderItem) (new_date : datetime)
    (s : Session) : Session :=
  update_row (idx self) (set_remind_date new_date) s.

(** [ReminderItem.delete(self)] *)
Definition delete (self : ReminderItem) (s : Session) : Session :=
  mkSession (filter (fun r => negb (idx r =? idx self)) (rows s)) (next_idx s).

(** [item.status = new_status; item.save()] *)
Definition save_status (self : ReminderItem) (new_status : ReminderStatus)
    (s : Session) : Session :=
  update_row (idx self) (set_status new_status) s.

End Database.

(** ** The coroutine monad *)

Module Cog.
Import Database.

Record User : Type := mkUser {
  user_id : Z;
  display_name : string
}.

(** An argument of [str.format] or of an f-string. *)
Inductive Arg : Type :=
| AInt (z : Z)
| AStr (s : string)
| ADate (d : datetime)
| AStatus (s : ReminderStatus).

(** A translated, formatted message: the message id handed to the
    translator [_] and the keyword values given to [str.format]. *)
Record Text : Type := mkText {
  msgid : string;
  kwargs : list (string * Arg)
}.

Definition plain (s : string) : Text := mkText s [].

(** [embed.add_field(name=..., value=..., inline=...)] *)
Record Field : Type := mkField {
  field_name : string;
  field_value : option string;
  inline : bool
}.

Record Embed : Type := mkEmbed {
  embed_author : option User;
  title : string;
  fields : list Field
}.

Definition add_field (e : Embed) (n : string) (v : option string) (i : bool)
    : Embed :=
  mkEmbed (embed_author e) (title e) (fields e ++ [mkField n v i]).

Record Reaction : Type := mkReaction {
  reaction_message_id : Z;
  emoji : string
}.

(** One [reaction_add] event: seconds elapsed since the wait began, the
    reaction and the user who added it. *)
Record ReactionAdd : Type := mkReactionAdd {
  elapsed : Z;
  ev_reaction : Reaction;
  ev_user : User
}.

(** What [await user.send(embed=embed)] does. [Forbidden] is a subclass of
    [HTTPException]; the handler on line 427 names both. *)
Inductive SendOutcome : Type :=
| Sent
| RaisesHTTPException
| RaisesForbidden.

Inductive Logger : Type := bot_log | guild_log.
Inductive Level : Type := debug | info | warning.

(** The observable effects of the cog, in the order they happen. *)
Inductive Effect : Type :=
| CtxSend (t : Text)
| CtxReply (t : Text)
| CtxSendPage (page : string)
| CtxSendEmbed (e : Embed) (message_id : Z)
| AddReaction (message_id : Z) (emoji : string)
| MessageDelete (message_id : Z)
| UserSend (to : User) (e : Embed) (outcome : SendOutcome)
| Log (l : Logger) (lv : Level) (t : Text)
| StoreQuery (f : Filter).

Record State : Type := mkState {
  session : Session;
  effects : list Effect
}.

Definition M (A : Type) : Type := State -> result A * State.

Definition ret {A : Type} (a : A) : M A := fun st => (Ok a, st).

Definition raise {A : Type} (e : exn) : M A := fun st => (Raise e, st).

Definition bind {A B : Type} (m : M A) (k : A -> M B) : M B :=
  fun st =>
    match m st with
    | (Ok a, st') => k a st'
    | (Raise e, st') => (Raise e, st')
    end.

Declare Scope cog_scope.
Delimit Scope cog_scope with cog.
Notation "x <- m ;; k" := (bind m (fun x => k))
  (at level 61, m at next level, right associativity) : cog_scope.
Notation "m ;; k" := (bind m (fun _ => k))
  (at level 61, right associativity) : cog_scope.
Local Open Scope cog_scope.

(** [try: m  except exc: handler]; an exception the clause does not name
    propagates. *)
Definition try_except {A : Type} (m : M A) (exc : exn -> bool) (handler : M A)
    : M A :=
  fun st =>
    match m st with
    | (Ok a, st') => (Ok a, st')
    | (Raise e, st') => if exc e then handler st' else (Raise e, st')
    end.

Definition emit (e : Effect) : M unit :=
  fun st => (Ok tt, mkState (session st) (effects st ++ [e])).

Definition commit (upd : Session -> Session) : M unit :=
  fun st => (Ok tt, mkState (upd (session st)) (effects st)).

(** [for x in xs: await body(x)] *)
Fixpoint for_each {A : Type} (xs : list A) (body : A -> M unit) : M unit :=
  match xs with
  | [] => ret tt
  | x :: rest => body x ;; for_each rest body
  end.

(** [ReminderItem.get_all(...)] run against the session. *)
Definition get_all (f : Filter) : M (list ReminderItem) :=
  fun st =>
    (Ok (get_all_rows f (rows (session st))),
     mkState (session st) (effects st ++ [StoreQuery f])).

(** [x is None] for [x] the list [get_all] returned: [query.all()] builds a
    list object, which is never [None]. *)
Definition is_None {A : Type} (x : list A) : bool := false.

(** [xs[0]] *)
Definition getitem0 {A : Type} (xs : list A) : M A :=
  match xs with
  | x :: _ => ret x
  | [] => raise IndexError
  end.

Definition confirm_emoji : string := "✅".
Definition cancel_emoji : string := "❎".

(** *** The collaborators of the cog

    Everything the cog reads from outside the repository during one command
    or one loop iteration. *)

Record Context : Type := mkContext {
  ctx_guild_id : Z;
  ctx_author : User
}.

(** A row of the table [_send_reminder_list] renders. *)
Record ReminderDummy : Type := mkDummy {
  d_idx : Z;
  d_author_name : string;
  d_remind_name : string;
  d_remind_date : datetime;
  d_status : string;
  d_url : string
}.

Record World : Type := mkWorld {
  (** the reading of [datetime.now()] *)
  now : datetime;
  (** [bot.get_guild(id)], and for a guild its [get_member] cache *)
  get_guild : Z -> option (Z -> option User);
  (** [bot.fetch_user(id)]; [None] stands for a raised [NotFound] *)
  fetch_user : Z -> option User;
  (** the outcome of a direct message to a user *)
  user_send : User -> SendOutcome;
  (** whether the free name [utx] (lines 354-369 and 423) resolves when it
      is evaluated; [module.py] itself binds no such name *)
  utx_bound : bool;
  (** [utils.time.parse_datetime]; [None] stands for [ParserError] *)
  parse_datetime : string -> option datetime;
  (** [date.strftime("%d.%m.%Y %H:%M")] *)
  strftime : datetime -> string;
  (** [nextcord.utils.escape_markdown] *)
  escape_markdown : string -> string;
  (** [str.upper] *)
  upper : string -> string;
  (** [str.replace(old, new)] *)
  str_replace : string -> string -> string -> string;
  (** [utils.text.create_table] *)
  create_table : list ReminderDummy -> list string;
  (** the id of the message [ctx.send(embed=embed)] returns *)
  proposal_message_id : Z;
  (** the [reaction_add] events dispatched while the cog waits, oldest first *)
  reaction_adds : list ReactionAdd
}.

(** ** reminder/module.py *)

Section Reminder.

Variable w : World.

(** Evaluation of the free name [utx]. *)
Definition utx : M unit :=
  if utx_bound w then ret tt else raise NameError.

(** [Reminder._get_member] *)
Definition _get_member (guild_id user_id : Z) : M (option User) :=
  match get_guild w guild_id with
  | None => raise AttributeError
  | Some guild =>
      match guild user_id with
      | Some user => ret (Some user)
      | None => ret (fetch_user w user_id)
      end
  end.

(** [Reminder._get_embed]; the parameter [tc] is not used by the body. *)
Definition _get_embed (query : ReminderItem) : M Embed :=
  reminder_user <- _get_member (guild_id query) (remind_id query) ;;
  let reminder_user_name :=
    match reminder_user with
    | None => "_(Unknown user)_"
    | Some u => escape_markdown w (display_name u)
    end in
  utx ;;
  let embed := mkEmbed reminder_user "Reminder" [] in
  let embed :=
    if negb (author_id query =? remind_id query)
    then add_field embed "Reminded by" (Some reminder_user_name) true
    else embed in
  let embed :=
    match message query with
    | Some "" => embed
    | m => add_field embed "Message" m false
    end in
  let embed := add_field embed "URL" (Some (permalink query)) true in
  ret embed.

(** [Reminder._remind] *)
Definition _remind (item : ReminderItem) : M unit :=
  reminded_user <- _get_member (guild_id item) (remind_id item) ;;
  match reminded_user with
  | None =>
      commit (save_status item FAILED) ;;
      emit (Log bot_log warning
              (plain "Unable to remind user - member out of bot reach.")) ;;
      ret tt
  | Some reminded_user =>
      utx ;;
      embed <- _get_embed item ;;
      match user_send w reminded_user with
      | Sent => emit (UserSend reminded_user embed Sent)
      | outcome =>
          emit (UserSend reminded_user embed outcome) ;;
          commit (save_status item FAILED) ;;
          emit (Log bot_log warning
                  (plain "Unable to remind user - blocked PM or not enough permissions."))
      end ;;
      commit (save_status item REMINDED) ;;
      emit (Log guild_log info
              (mkText "Reminder ID {id} succesfully sent to {user}"
                 [("id", AInt (idx item));
                  ("user", AStr (display_name reminded_user))]))
  end.

(** One iteration of the [tasks.loop(seconds=30)] coroutine [reminder]. *)
Definition reminder : M unit :=
  let max_remind_time := now w + timedelta_seconds 30 in
  items <- get_all (mkFilter None None None (Some WAITING)
                             None None None (Some max_remind_time)) ;;
  if negb (is_None items) then for_each items _remind else ret tt.

(** [Reminder._send_reminder_list] *)
Definition reminder_dummy (item : ReminderItem) : M ReminderDummy :=
  author <- _get_member (guild_id item) (author_id item) ;;
  remind <- _get_member (guild_id item) (remind_id item) ;;
  let author_name :=
    match author with Some u => display_name u | None => "(unknown)" end in
  let remind_name :=
    match remind with Some u => display_name u | None => "(unknown)" end in
  ret (mkDummy (idx item) author_name remind_name (remind_date item)
         (name (status item))
         (str_replace w (permalink item) "https://discord.com/channels/" "")).

Fixpoint reminder_dummies (query : list ReminderItem)
    : M (list ReminderDummy) :=
  match query with
  | [] => ret []
  | item :: rest =>
      reminder <- reminder_dummy item ;;
      reminders <- reminder_dummies rest ;;
      ret (reminder :: reminders)
  end.

Definition _send_reminder_list (ctx : Context) (query : list ReminderItem)
    : M unit :=
  reminders <- reminder_dummies query ;;
  let table_pages := create_table w reminders in
  for_each table_pages (fun table_page => emit (CtxSendPage table_page)).

Definition is_KeyError (e : exn) : bool :=
  match e with KeyError => true | _ => false end.

Definition invalid_status : Text :=
  mkText "Invalid status. Allowed: {status}" [("status", AStr str_list)].

(** [Reminder.reminders_get]; [status = None] is a call that omits the
    argument, which then takes the default of the signature. *)
Definition reminders_get (ctx : Context) (status : option string) : M unit :=
  let status := match status with Some s => s | None => "WAITING" end in
  match ReminderStatus_getitem (upper w status) with
  | Raise e =>
      if is_KeyError e then emit (CtxSend invalid_status) ;; ret tt
      else raise e
  | Ok status =>
      query <- get_all (mkFilter (Some (ctx_guild_id ctx)) None
                          (Some (user_id (ctx_author ctx))) (Some status)
                          None None None None) ;;
      _send_reminder_list ctx query
  end.

(** [Reminder.reminders_all] *)
Definition reminders_all (ctx : Context) (status : option string) : M unit :=
  let status := match status with Some s => s | None => "WAITING" end in
  match ReminderStatus_getitem (upper w status) with
  | Raise e =>
      if is_KeyError e then emit (CtxSend invalid_status) ;; ret tt
      else raise e
  | Ok status =>
      query <- get_all (mkFilter (Some (ctx_guild_id ctx)) None None
                          (Some status) None None None None) ;;
      _send_reminder_list ctx query
  end.

(** *** The confirmation flows *)

(** The closure [check_id] of [reschedule] and of [delete]: [message_id] is
    the id of the proposal just sent, [query] the record it is about. *)
Definition check_id (message_id : Z) (query : ReminderItem)
    (reaction : Reaction) (user : User) : bool :=
  (reaction_message_id reaction =? message_id)
  && (String.eqb (emoji reaction) confirm_emoji
      || String.eqb (emoji reaction) cancel_emoji)
  && (user_id user =? remind_id query).

(** [bot.wait_for("reaction_add", check=check, timeout=timeout)]: the first
    event that passes [check] before [timeout] seconds have elapsed, else
    [asyncio.TimeoutError]. *)
Fixpoint wait_for (check : Reaction -> User -> bool) (timeout : Z)
    (events : list ReactionAdd) : result (Reaction * User) :=
  match events with
  | [] => Raise TimeoutError
  | ev :: later =>
      if timeout <=? elapsed ev then Raise TimeoutError
      else if check (ev_reaction ev) (ev_user ev)
           then Ok (ev_reaction ev, ev_user ev)
           else wait_for check timeout later
  end.

Definition is_TimeoutError (e : exn) : bool :=
  match e with TimeoutError => true | _ => false end.

(** Lines 240-257 of [reschedule]. The two [ctx.send(...)] calls of the
    [else] branch are not awaited: the coroutine objects are dropped and
    nothing is sent. *)
Definition reschedule_decision (query : ReminderItem) (date : datetime)
    (message_id : Z) (events : list ReactionAdd) : M unit :=
  match wait_for (check_id message_id query) 60 events with
  | Raise e =>
      if is_TimeoutError e then emit (CtxSend (plain "Reschedule timed out."))
      else raise e
  | Ok (reaction, user) =>
      if String.eqb (emoji reaction) confirm_emoji then
        emit (Log bot_log debug
                (mkText "Rescheduling reminder - ID: {query.idx}, time: {date}, status: {query.status}"
                   [("query.idx", AInt (idx query)); ("date", ADate date);
                    ("query.status", AStatus (status query))])) ;;
        commit (Database.reschedule query date)
      else if String.eqb (emoji reaction) cancel_emoji then ret tt
      else ret tt
  end.

(** Lines 300-315 of [delete]. *)
Definition delete_decision (query : ReminderItem) (message_id : Z)
    (events : list ReactionAdd) : M unit :=
  match wait_for (check_id message_id query) 60 events with
  | Raise e =>
      if is_TimeoutError e then emit (CtxSend (plain "Deleting timed out."))
      else raise e
  | Ok (reaction, user) =>
      if String.eqb (emoji reaction) confirm_emoji then
        emit (Log bot_log debug
                (mkText "Deleting reminder from db - ID: {query.idx}, time: {query.remind_date}, status: {query.status}"
                   [("query.idx", AInt (idx query));
                    ("query.remind_date", ADate (remind_date query));
                    ("query.status", AStatus (status query))])) ;;
        commit (Database.delete query)
      else if String.eqb (emoji reaction) cancel_emoji then ret tt
      else ret tt
  end.

Definition does_not_exist (idx : Z) : Text :=
  mkText "Reminder with ID {id} does not exists." [("id", AInt idx)].

Definition parse_failure (datetime_str : string) : Text :=
  mkText "I don't know how to parse `{datetime_str}`, please try again."
    [("datetime_str", AStr datetime_str)].

(** [message = await ctx.send(embed=embed)] followed by the two
    [add_reaction] calls, each taken to return: no handler encloses them,
    so a failure of one of them would end the command there. *)
Definition propose (embed : Embed) : M Z :=
  let message_id := proposal_message_id w in
  emit (CtxSendEmbed embed message_id) ;;
  emit (AddReaction message_id confirm_emoji) ;;
  emit (AddReaction message_id cancel_emoji) ;;
  ret message_id.

(** [Reminder.reschedule] *)
Definition reschedule (ctx : Context) (idx : Z) (datetime_str : string)
    : M unit :=
  query <- get_all (mkFilter (Some (ctx_guild_id ctx)) (Some idx)
                      None None None None None None) ;;
  if is_None query then emit (CtxSend (does_not_exist idx)) ;; ret tt
  else
    query <- getitem0 query ;;
    if negb (remind_id query =? user_id (ctx_author ctx)) then
      emit (CtxSend (plain "Can't reschedule other's reminders.")) ;; ret tt
    else
      match parse_datetime w datetime_str with
      | None => emit (CtxReply (parse_failure datetime_str)) ;; ret tt
      | Some date =>
          if date <? now w then
            emit (CtxSend (plain "Reschedule time must be in furuter.")) ;;
            ret tt
          else
            let print_date := strftime w date in
            embed <- _get_embed query ;;
            let embed := add_field embed "New time" (Some print_date) false in
            let embed :=
              add_field embed "Do you really want to edit reminder time/date?"
                (Some ("✅ for confirmation" ++ "❎ for storno")%string) false in
            message_id <- propose embed ;;
            reschedule_decision query date message_id (reaction_adds w) ;;
            emit (MessageDelete message_id)
      end.

(** [Reminder.delete] *)
Definition delete (ctx : Context) (idx : Z) : M unit :=
  query <- get_all (mkFilter (Some (ctx_guild_id ctx)) (Some idx)
                      None None None None None None) ;;
  if is_None query then emit (CtxSend (does_not_exist idx)) ;; ret tt
  else
    query <- getitem0 query ;;
    if negb (remind_id query =? user_id (ctx_author ctx)) then
      emit (CtxSend (plain "Can't delete other's reminders.")) ;; ret tt
    else
      embed <- _get_embed query ;;
      let embed :=
        add_field embed "Do you really want to delete this reminder?"
          (Some ("✅ for confirmation" ++ "❎ for storno")%string) false in
      message_id <- propose embed ;;
      delete_decision query message_id (reaction_adds w) ;;
      emit (MessageDelete message_id).

(** *** Text of a reminder

    [_process_text] works on the characters of the message, so here a
    [str] is the list of its code points. *)

Definition pystr : Type := list Z.

(** [" "] *)
Definition space : Z := 32.

(** The word made of three backquotes that fences a code block. *)
Definition fence : pystr := [96; 96; 96].

Fixpoint pystr_eqb (a b : pystr) : bool :=
  match a, b with
  | [], [] => true
  | x :: a', y :: b' => (x =? y) && pystr_eqb a' b'
  | _, _ => false
  end.

(** [s.startswith(sep)] *)
Fixpoint startswith (sep s : pystr) : bool :=
  match sep, s with
  | [], _ => true
  | _ :: _, [] => false
  | x :: sep', y :: s' => (x =? y) && startswith sep' s'
  end.

(** [s.split(sep)] for a non-empty [sep], scanning from the left: [skip]
    counts the characters of a separator just found that are still to be
    passed over. *)
Fixpoint split_from (sep : pystr) (skip : nat) (s : pystr) : list pystr :=
  match s with
  | [] => [[]]
  | c :: rest =>
      match skip with
      | S k => split_from sep k rest
      | O =>
          if startswith sep s
          then [] :: split_from sep (List.length sep - 1) rest
          else
            match split_from sep O rest with
            | piece :: pieces => (c :: piece) :: pieces
            | [] => [[c]]
            end
      end
  end.

(** [s.split(sep)]; an empty separator is a [ValueError]. *)
Definition str_split (s sep : pystr) : result (list pystr) :=
  match sep with
  | [] => Raise ValueError
  | _ :: _ => Ok (split_from sep O s)
  end.

(** [xs[1]] *)
Definition getitem1 {A : Type} (xs : list A) : result A :=
  match nth_error xs 1 with
  | Some x => Ok x
  | None => Raise IndexError
  end.

(** [re.split(" ", s)]: the pattern is one literal space. *)
Definition re_split_space (s : pystr) : list pystr :=
  split_from [space] O s.

(** [while "" in lines: lines.remove("")] *)
Definition remove_empty (lines : list pystr) : list pystr :=
  filter (fun l => match l with [] => false | _ :: _ => true end) lines.

(** [" ".join(lines)] *)
Fixpoint join_space (lines : list pystr) : pystr :=
  match lines with
  | [] => []
  | [l] => l
  | l :: rest => l ++ space :: join_space rest
  end.

(** [lines.count(x)] *)
Definition count (x : pystr) (lines : list pystr) : nat :=
  List.length (filter (pystr_eqb x) lines).

(** What [_process_text] hands back: [None], a [str], or the list [lines]
    that the last branch of line 338 selects. *)
Inductive Processed : Type :=
| PNone
| PStr (text : pystr)
| PList (lines : list pystr).

(** [Reminder._process_text]; [content] is [ctx.message.content]. *)
Definition _process_text (content datetime_str : pystr) (text : option pystr)
    : result Processed :=
  match text with
  | None => Ok PNone
  | Some _ =>
      let lines := content in
      match str_split lines datetime_str with
      | Raise e => Raise e
      | Ok pieces =>
          match getitem1 pieces with
          | Raise e => Raise e
          | Ok lines =>
              let lines := re_split_space lines in
              let lines := remove_empty lines in
              let text := join_space lines in
              if (1024 <? List.length text)%nat then
                let text := firstn 1024 text in
                if Nat.odd (count fence lines)
                then Ok (PStr (firstn (List.length text - 3) text ++ fence))
                else Ok (PList lines)
              else Ok (PStr text)
          end
      end
  end.

End Reminder.

End Cog.

(** * Specification vocabulary *)

Module Spec.
Import Database Cog.

(** A supplied criterion holds; an omitted one ([None]) holds vacuously. *)
Definition holds {A : Type} (arg : option A) (P : A -> Prop) : Prop :=
  match arg with
  | Some a => P a
  | None => True
  end.

(** The conjunction of the criteria [get_all] was given. *)
Definition matches (f : Filter) (r : ReminderItem) : Prop :=
  holds (f_guild_id f) (fun g => guild_id r = g) /\
  holds (f_idx f) (fun i => idx r = i) /\
  holds (f_remind_id f) (fun u => remind_id r = u) /\
  holds (f_status f) (fun s => status r = s) /\
  holds (f_min_origin_date f) (fun d => d < origin_date r) /\
  holds (f_max_origin_date f) (fun d => origin_date r < d) /\
  holds (f_min_remind_date f) (fun d => d < remind_date r) /\
  holds (f_max_remind_date f) (fun d => remind_date r < d).

(** Descending [remind_date]. *)
Definition date_desc (a b : ReminderItem) : Prop :=
  remind_date b <= remind_date a.

(** Descending [remind_date], and ascending [idx] among equal dates. *)
Definition date_desc_idx_asc (a b : ReminderItem) : Prop :=
  remind_date b < remind_date a \/
  (remind_date b = remind_date a /\ idx a <= idx b).

(** The directory produces [user] for member [u] of guild [g]: from the
    guild's member cache, or else from [fetch_user]. *)
Definition resolves (w : World) (g u : Z) (user : User) : Prop :=
  exists guild,
    get_guild w g = Some guild /\
    (guild u = Some user \/ (guild u = None /\ fetch_user w u = Some user)).

(** The criteria of the dispatcher's query (lines 32-36). *)
Definition due_filter (w : World) : Filter :=
  mkFilter None None None (Some WAITING) None None None
           (Some (now w + timedelta_seconds 30)).

(** The records one iteration of [reminder] hands to [_remind]. *)
Definition due_items (w : World) (st : State) : list ReminderItem :=
  get_all_rows (due_filter w) (rows (session st)).

(** The criteria of the lookup that opens [reschedule] and [delete]. *)
Definition lookup_filter (ctx : Context) (i : Z) : Filter :=
  mkFilter (Some (ctx_guild_id ctx)) (Some i) None None None None None None.

(** The primary keys of the table are pairwise distinct and all below the
    autoincrement counter. *)
Definition well_formed (s : Session) : Prop :=
  NoDup (map idx (rows s)) /\ Forall (fun r => idx r < next_idx s) (rows s).

(** A supplied criterion, as a test. *)
Definition test {A : Type} (arg : option A) (p : A -> bool) : bool :=
  match arg with
  | Some a => p a
  | None => true
  end.

(** [matches], as a test. *)
Definition matchesb (f : Filter) (r : ReminderItem) : bool :=
  test (f_guild_id f) (fun g => guild_id r =? g)
  && test (f_idx f) (fun i => idx r =? i)
  && test (f_remind_id f) (fun u => remind_id r =? u)
  && test (f_status f) (fun s => status_eqb (status r) s)
  && test (f_min_origin_date f) (fun d => d <? origin_date r)
  && test (f_max_origin_date f) (fun d => origin_date r <? d)
  && test (f_min_remind_date f) (fun d => d <? remind_date r)
  && test (f_max_remind_date f) (fun d => remind_date r <? d).

(** The lookup of one primary key. *)
Definition by_idx (i : Z) : Filter :=
  mkFilter None (Some i) None None None None None None.

(** [r'] is [r], or [r] with its status overwritten by a terminal one. *)
Definition evolves (r r' : ReminderItem) : Prop :=
  r' = r \/ r' = set_status FAILED r \/ r' = set_status REMINDED r.

(** A step that writes a terminal status on the rows keyed like [item]. *)
Definition stamped (item : ReminderItem) (r r' : ReminderItem) : Prop :=
  evolves r r' /\ (idx r = idx item -> status r' <> WAITING).

(** The instant before which the dispatcher considers a record due. *)
Definition horizon (w : World) : datetime := now w + timedelta_seconds 30.

(** The line of the listing for [item] when the cache of its guild is
    [guild]: a user neither cached nor fetched is shown as "(unknown)". *)
Definition member_name (w : World) (guild : Z -> option User) (u : Z)
    : string :=
  match guild u with
  | Some user => display_name user
  | None =>
      match fetch_user w u with
      | Some user => display_name user
      | None => "(unknown)"
      end
  end.

Definition listed (w : World) (guild : Z -> option User) (item : ReminderItem)
    : ReminderDummy :=
  mkDummy (idx item) (member_name w guild (author_id item))
          (member_name w guild (remind_id item)) (remind_date item)
          (name (status item))
          (str_replace w (permalink item) "https://discord.com/channels/" "").

(** A non-empty run of characters other than the space. *)
Definition word (p : pystr) : Prop := p <> [] /\ ~ In space p.

(** Words separated by single spaces: no space at either end, no two
    spaces in a row. *)
Definition tidy (s : pystr) : Prop :=
  exists words, Forall word words /\ s = join_space words.

(** [sep] occurs in [s]. *)
Definition occurs (sep s : pystr) : Prop :=
  exists a b, s = a ++ sep ++ b.

(** [sep] does not occur in [before ++ sep ++ rest] earlier than right
    after [before]. *)
Definition first_at (sep before rest : pystr) : Prop :=
  forall a b, before ++ sep ++ rest = a ++ sep ++ b ->
              (List.length before <= List.length a)%nat.

(** The characters of [s] other than spaces. *)
Definition unspaced (s : pystr) : pystr :=
  filter (fun c => negb (c =? space)) s.

End Spec.

(** * Sample collaborators and records *)

Module Samples.
Import Database Cog.

(** [str.upper] on ASCII text. *)
Definition ascii_upper_char (c : ascii) : ascii :=
  let n := nat_of_ascii c in
  if (97 <=? n)%nat && (n <=? 122)%nat then ascii_of_nat (n - 32) else c.

Fixpoint ascii_upper (s : string) : string :=
  match s with
  | EmptyString => EmptyString
  | String c rest => String (ascii_upper_char c) (ascii_upper rest)
  end.

(** [s.replace(old, new)] for a non-empty [old]: [skip] counts the
    characters of a match still to be dropped. *)
Fixpoint replace_from (old new : string) (skip : nat) (s : string) : string :=
  match s with
  | EmptyString => EmptyString
  | String c rest =>
      match skip with
      | S k => replace_from old new k rest
      | O =>
          if String.prefix old s
          then (new ++ replace_from old new (String.length old - 1) rest)%string
          else String c (replace_from old new O rest)
      end
  end.

(** [s.replace("", new)]: [new] before every character and at the end. *)
Fixpoint intersperse (new s : string) : string :=
  match s with
  | EmptyString => new
  | String c rest => (new ++ String c (intersperse new rest))%string
  end.

Definition replace (s old new : string) : string :=
  match old with
  | EmptyString => intersperse new s
  | _ => replace_from old new O s
  end.

Definition alice : User := mkUser 8 "alice".
Definition bob : User := mkUser 9 "bob".

Definition ctx_alice : Context := mkContext 7 alice.

(** Guild 7 has [alice] and [bob] in its member cache. *)
Definition guilds (g : Z) : option (Z -> option User) :=
  if g =? 7
  then Some (fun u => if u =? 8 then Some alice
                      else if u =? 9 then Some bob else None)
  else None.

Definition tomorrow : datetime := 86400000000.

Definition parse (s : string) : option datetime :=
  if String.eqb s "tomorrow" then Some tomorrow
  else if String.eqb s "epoch" then Some 0
  else if String.eqb s "now" then Some 1000
  else None.

Definition table_pages (l : list ReminderDummy) : list string :=
  map d_url l.

(** The clock reads 1000; direct messages are refused; [utx] is bound or
    not as [bound] says; the first reactions to arrive are [events]. *)
Definition world (bound : bool) (events : list ReactionAdd) : World :=
  mkWorld 1000 guilds (fun _ => None) (fun _ => RaisesForbidden) bound
          parse (fun _ => "02.01.1970 00:00") (fun s => s) ascii_upper
          replace table_pages 500 events.

Definition tea : ReminderItem :=
  mkItem 1 7 8 8 "https://discord.com/channels/7/70/700" (Some "tea")
         100 2000 WAITING.

(** A record whose delivery already failed. *)
Definition stale : ReminderItem :=
  mkItem 1 7 8 8 "https://discord.com/channels/7/70/700" (Some "tea")
         100 900 FAILED.

(** A record due exactly 30 seconds after the clock reading 1000. *)
Definition on_horizon : ReminderItem :=
  mkItem 1 7 8 8 "https://discord.com/channels/7/70/700" None
         100 30001000 WAITING.

Definition confirm_by (u : User) (message_id : Z) (t : Z) : ReactionAdd :=
  mkReactionAdd t (mkReaction message_id confirm_emoji) u.

Definition cancel_by (u : User) (message_id : Z) (t : Z) : ReactionAdd :=
  mkReactionAdd t (mkReaction message_id cancel_emoji) u.

Definition state_of (l : list ReminderItem) : State :=
  mkState (mkSession l 2) [].

(** The code points of an ASCII literal. *)
Definition codes (s : string) : pystr :=
  map (fun a => Z.of_nat (nat_of_ascii a)) (list_ascii_of_string s).

(** A second record, of guild 7, written by [alice] for [bob]. *)
Definition milk : ReminderItem :=
  mkItem 2 7 8 9 "https://discord.com/channels/7/70/701" (Some "milk")
         100 1500 WAITING.

(** A record of a guild the bot does not know. *)
Definition orphan : ReminderItem :=
  mkItem 3 6 8 8 "https://discord.com/channels/6/60/600" None
         100 3000 WAITING.

(** As [world], with every direct message delivered. *)
Definition reachable (bound : bool) (events : list ReactionAdd) : World :=
  mkWorld 1000 guilds (fun _ => None) (fun _ => Sent) bound
          parse (fun _ => "02.01.1970 00:00") (fun s => s) ascii_upper
          replace table_pages 500 events.

(** As [world], with an empty member cache for guild 7. *)
Definition deserted (bound : bool) : World :=
  mkWorld 1000 (fun g => if g =? 7 then Some (fun _ => None) else None)
          (fun _ => None) (fun _ => Sent) bound
          parse (fun _ => "02.01.1970 00:00") (fun s => s) ascii_upper
          replace table_pages 500 [].

End Samples.

(** * Properties of the store *)

Module DatabaseFacts.
Import Database Spec.

Lemma status_eqb_eq (a b : ReminderStatus) : status_eqb a b = true <-> a = b.
Proof. destruct a, b; simpl; split; congruence. Qed.

Lemma filter_if_In {A : Type} (arg : option A) (p : A -> ReminderItem -> bool)
    (P : A -> ReminderItem -> Prop) (query : list ReminderItem)
    (r : ReminderItem) :
  (forall a x, p a x = true <-> P a x) ->
  In r (filter_if arg p query) <-> In r query /\ holds arg (fun a => P a r).
Proof.
  intros Hp. destruct arg as [a|]; simpl.
  - rewrite filter_In, Hp. tauto.
  - tauto.
Qed.

Lemma insert_desc_In (r x : ReminderItem) (l : list ReminderItem) :
  In x (insert_desc r l) <-> x = r \/ In x l.
Proof.
  induction l as [|h t IH]; simpl.
  - intuition congruence.
  - destruct (remind_date h <=? remind_date r); simpl.
    + intuition congruence.
    + rewrite IH. intuition congruence.
Qed.

Lemma order_by_In (x : ReminderItem) (l : list ReminderItem) :
  In x (order_by_remind_date_desc l) <-> In x l.
Proof.
  induction l as [|h t IH]; simpl.
  - tauto.
  - rewrite insert_desc_In, IH. intuition congruence.
Qed.

Lemma insert_desc_sorted (r : ReminderItem) (l : list ReminderItem) :
  StronglySorted date_desc l -> StronglySorted date_desc (insert_desc r l).
Proof.
  induction 1 as [|h t Hs IH Hh]; simpl.
  - repeat constructor.
  - destruct (remind_date h <=? remind_date r) eqn:E.
    + apply Z.leb_le in E. constructor.
      * constructor; assumption.
      * constructor.
        -- unfold date_desc. lia.
        -- rewrite Forall_forall in *. intros y Hy.
           specialize (Hh y Hy). unfold date_desc in *. lia.
    + apply Z.leb_gt in E. constructor.
      * exact IH.
      * rewrite Forall_forall in *. intros y Hy.
        apply insert_desc_In in Hy. destruct Hy as [->|Hy].
        -- unfold date_desc. lia.
        -- apply Hh, Hy.
Qed.

Lemma order_by_sorted (l : list ReminderItem) :
  StronglySorted date_desc (order_by_remind_date_desc l).
Proof.
  induction l as [|h t IH]; simpl.
  - constructor.
  - apply insert_desc_sorted, IH.
Qed.

Lemma insert_desc_perm (r : ReminderItem) (l : list ReminderItem) :
  Permutation (insert_desc r l) (r :: l).
Proof.
  induction l as [|h t IH]; simpl.
  - apply Permutation_refl.
  - destruct (remind_date h <=? remind_date r).
    + apply Permutation_refl.
    + eapply perm_trans; [apply perm_skip, IH | apply perm_swap].
Qed.

Lemma order_by_perm (l : list ReminderItem) :
  Permutation (order_by_remind_date_desc l) l.
Proof.
  induction l as [|h t IH]; simpl.
  - apply perm_nil.
  - eapply perm_trans; [apply insert_desc_perm | apply perm_skip, IH].
Qed.

Lemma get_all_rows_In (f : Filter) (table : list ReminderItem)
    (r : ReminderItem) :
  In r (get_all_rows f table) <-> In r table /\ matches f r.
Proof.
  unfold get_all_rows, matches.
  rewrite order_by_In.
  rewrite (filter_if_In _ _ (fun d x => remind_date x < d));
    [|intros; apply Z.ltb_lt].
  rewrite (filter_if_In _ _ (fun d x => d < remind_date x));
    [|intros; apply Z.ltb_lt].
  rewrite (filter_if_In _ _ (fun d x => origin_date x < d));
    [|intros; apply Z.ltb_lt].
  rewrite (filter_if_In _ _ (fun d x => d < origin_date x));
    [|intros; apply Z.ltb_lt].
  rewrite (filter_if_In _ _ (fun s x => status x = s));
    [|intros; apply status_eqb_eq].
  rewrite (filter_if_In _ _ (fun u x => remind_id x = u));
    [|intros; apply Z.eqb_eq].
  rewrite (filter_if_In _ _ (fun i x => idx x = i));
    [|intros; apply Z.eqb_eq].
  rewrite (filter_if_In _ _ (fun g x => guild_id x = g));
    [|intros; apply Z.eqb_eq].
  tauto.
Qed.

End DatabaseFacts.

Module StoreClaims.
Import Database Cog Spec DatabaseFacts.
Local Open Scope cog_scope.

(** C2 (as stated, refuted): a due date equal to the creation instant is
    not rejected. With the clock at 100 and [remind_date = 100], [add]
    stores a WAITING record, so "fails whenever [due <= now]" is false. *)
Lemma add_at_creation_instant_is_accepted :
  add 100 7 8 8 "url" None 0 100 (mkSession [] 1)
  = (Ok (mkItem 1 7 8 8 "url" None 100 100 WAITING),
     mkSession [mkItem 1 7 8 8 "url" None 100 100 WAITING] 2)
  /\ ~ (forall now g a u p m od rd s,
          rd <= now -> fst (add now g a u p m od rd s) = Raise ValueError).
Proof.
  split.
  - reflexivity.
  - intros H.
    specialize (H 100 7 8 8 "url" None 0 100 (mkSession [] 1)).
    simpl in H. assert (L : 100 <= 100) by lia.
    specialize (H L). discriminate H.
Qed.

(** C2 (amended): [add] compares the due date with its own clock reading.
    A due date strictly earlier than that instant raises [ValueError] and
    leaves the session as it was; a due date at or after that instant
    appends a new WAITING record carrying the session's next index. *)
Theorem add_checks_against_clock
    (now : datetime) (g a u : Z) (p : string) (m : option string)
    (od rd : datetime) (s : Session) :
  (rd < now -> add now g a u p m od rd s = (Raise ValueError, s)) /\
  (now <= rd ->
     add now g a u p m od rd s
     = (Ok (mkItem (next_idx s) g a u p m now rd WAITING),
        mkSession (rows s ++ [mkItem (next_idx s) g a u p m now rd WAITING])
                  (next_idx s + 1))).
Proof.
  unfold add. split; intros H.
  - apply Z.ltb_lt in H. rewrite H. reflexivity.
  - apply Z.ltb_ge in H. rewrite H. reflexivity.
Qed.

Lemma add_checks_against_clock_witness :
  add 100 7 8 8 "url" None 0 99 (mkSession [] 1)
    = (Raise ValueError, mkSession [] 1)
  /\ add 100 7 8 8 "url" None 0 101 (mkSession [] 1)
    = (Ok (mkItem 1 7 8 8 "url" None 100 101 WAITING),
       mkSession ([] ++ [mkItem 1 7 8 8 "url" None 100 101 WAITING]) (1 + 1)).
Proof.
  split.
  - apply (proj1 (add_checks_against_clock 100 7 8 8 "url" None 0 99
                    (mkSession [] 1))). lia.
  - apply (proj2 (add_checks_against_clock 100 7 8 8 "url" None 0 101
                    (mkSession [] 1))). lia.
Defined.

(** C9: the [origin_date] argument of [add] has no influence on the
    outcome, and a record that [add] returns is stored with
    [origin_date] equal to the clock reading of the call. *)
Theorem add_discards_origin_date
    (now : datetime) (g a u : Z) (p : string) (m : option string)
    (od od' rd : datetime) (s : Session) :
  add now g a u p m od rd s = add now g a u p m od' rd s /\
  (forall item s',
     add now g a u p m od rd s = (Ok item, s') ->
     origin_date item = now /\
     rows s' = rows s ++ [item]).
Proof.
  split; [reflexivity|].
  unfold add. intros item s' H.
  destruct (rd <? now); [discriminate|].
  injection H as <- <-. split; reflexivity.
Qed.

Lemma add_discards_origin_date_witness :
  origin_date (mkItem 1 7 8 8 "url" None 100 101 WAITING) = 100 /\
  rows (mkSession [mkItem 1 7 8 8 "url" None 100 101 WAITING] 2)
  = rows (mkSession [] 1) ++ [mkItem 1 7 8 8 "url" None 100 101 WAITING].
Proof.
  destruct (proj2 (add_discards_origin_date 100 7 8 8 "url" None 5 6 101
                     (mkSession [] 1))
              (mkItem 1 7 8 8 "url" None 100 101 WAITING)
              (mkSession [mkItem 1 7 8 8 "url" None 100 101 WAITING] 2)
              eq_refl) as [H1 H2].
  split; [exact H1 | exact H2].
Defined.

(** C10: whatever criteria are supplied, [get_all] answers with a list,
    every record of the answer is a record of the table that meets all the
    supplied criteria together (date bounds exclusive, as the query writes
    them), and the session after the call is the session before it. *)
Theorem get_all_filters_conjunctively (f : Filter) (st : State) :
  exists items,
    get_all f st = (Ok items, mkState (session st) (effects st ++ [StoreQuery f]))
    /\ session (snd (get_all f st)) = session st
    /\ forall r, In r items -> In r (rows (session st)) /\ matches f r.
Proof.
  exists (get_all_rows f (rows (session st))).
  split; [reflexivity|]. split; [reflexivity|].
  intros r Hr. apply get_all_rows_In, Hr.
Qed.

Lemma get_all_filters_conjunctively_witness :
  In (mkItem 1 7 8 8 "a" None 0 10 WAITING)
     (rows (mkSession [mkItem 1 7 8 8 "a" None 0 10 WAITING;
                       mkItem 2 6 9 9 "b" None 0 20 FAILED] 3))
  /\ matches (mkFilter (Some 7) None (Some 8) (Some WAITING)
                None None (Some 5) (Some 15))
       (mkItem 1 7 8 8 "a" None 0 10 WAITING).
Proof.
  destruct (get_all_filters_conjunctively
              (mkFilter (Some 7) None (Some 8) (Some WAITING)
                 None None (Some 5) (Some 15))
              (mkState (mkSession [mkItem 1 7 8 8 "a" None 0 10 WAITING;
                                   mkItem 2 6 9 9 "b" None 0 20 FAILED] 3) []))
    as [items [H1 [_ H3]]].
  apply H3. injection H1 as <-. left. reflexivity.
Defined.

(** C6 (as stated, refuted): two records due at the same instant come back
    in the order the backend holds them, here index 2 before index 1, so
    the result is not ordered by index among equal due dates. *)
Lemma get_all_ties_not_ordered_by_idx :
  get_all_rows no_filter
    [mkItem 2 7 8 8 "b" None 0 10 WAITING; mkItem 1 7 8 8 "a" None 0 10 WAITING]
  = [mkItem 2 7 8 8 "b" None 0 10 WAITING; mkItem 1 7 8 8 "a" None 0 10 WAITING]
  /\ ~ (forall f table, StronglySorted date_desc_idx_asc (get_all_rows f table)).
Proof.
  split; [reflexivity|].
  intros H.
  specialize (H no_filter
    [mkItem 2 7 8 8 "b" None 0 10 WAITING; mkItem 1 7 8 8 "a" None 0 10 WAITING]).
  unfold get_all_rows in H. simpl in H.
  inversion H as [|x l _ Hall]; subst.
  inversion Hall as [|y l' Hxy _]; subst.
  unfold date_desc_idx_asc in Hxy. simpl in Hxy. lia.
Qed.

(** C6 (amended): the answer of [get_all] is a list ordered by descending
    due date, holding exactly the matching records of the table; two calls
    in a row with the same criteria give the same list; when no record
    matches the list is empty. No order by index is promised among records
    with equal due dates. *)
Theorem get_all_ordered_by_remind_date_desc (f : Filter) (st : State) :
  exists items,
    fst (get_all f st) = Ok items
    /\ fst ((get_all f ;; get_all f) st) = Ok items
    /\ StronglySorted date_desc items
    /\ (forall r, In r items <-> In r (rows (session st)) /\ matches f r)
    /\ ((forall r, In r (rows (session st)) -> ~ matches f r) -> items = []).
Proof.
  exists (get_all_rows f (rows (session st))).
  split; [reflexivity|]. split; [reflexivity|].
  split; [apply order_by_sorted|].
  split; [intros r; apply get_all_rows_In|].
  intros Hnone.
  destruct (get_all_rows f (rows (session st))) as [|r l] eqn:E;
    [reflexivity|].
  exfalso.
  assert (Hr : In r (get_all_rows f (rows (session st))))
    by (rewrite E; left; reflexivity).
  apply get_all_rows_In in Hr. destruct Hr as [Hin Hm].
  exact (Hnone r Hin Hm).
Qed.

Lemma get_all_ordered_by_remind_date_desc_witness :
  exists items,
    fst (get_all no_filter (mkState (mkSession [] 1) [])) = Ok items
    /\ items = [].
Proof.
  destruct (get_all_ordered_by_remind_date_desc no_filter
              (mkState (mkSession [] 1) []))
    as [items [H1 [_ [_ [_ H5]]]]].
  exists items. split; [exact H1|].
  apply H5. intros r [].
Defined.

End StoreClaims.

(** * Properties of the cog *)

Module CogFacts.
Import Database Cog Spec Samples DatabaseFacts.
Local Open Scope cog_scope.

Lemma _get_member_state (w : World) (g u : Z) (st : State) :
  snd (_get_member w g u st) = st.
Proof.
  unfold _get_member.
  destruct (get_guild w g) as [guild|]; [|reflexivity].
  destruct (guild u); reflexivity.
Qed.

Lemma _get_member_resolves (w : World) (g u : Z) (user : User) (st : State) :
  resolves w g u user -> _get_member w g u st = (Ok (Some user), st).
Proof.
  intros [guild [Hg [Hc|[Hc Hf]]]]; unfold _get_member; rewrite Hg, Hc.
  - reflexivity.
  - rewrite Hf. reflexivity.
Qed.

Lemma _get_embed_state (w : World) (query : ReminderItem) (st : State) :
  snd (_get_embed w query st) = st.
Proof.
  unfold _get_embed, bind, utx.
  pose proof (_get_member_state w (guild_id query) (remind_id query) st) as H.
  destruct (_get_member w (guild_id query) (remind_id query) st) as [[o|e] st'];
    simpl in H; subst st'; [|reflexivity].
  destruct (utx_bound w); reflexivity.
Qed.

Lemma _get_embed_unbound (w : World) (query : ReminderItem) (st : State) :
  utx_bound w = false ->
  exists e, _get_embed w query st = (Raise e, st).
Proof.
  intros Hu. unfold _get_embed, bind, utx.
  pose proof (_get_member_state w (guild_id query) (remind_id query) st) as H.
  destruct (_get_member w (guild_id query) (remind_id query) st) as [[o|e] st'];
    simpl in H; subst st'.
  - rewrite Hu. exists NameError. reflexivity.
  - exists e. reflexivity.
Qed.

Lemma _get_embed_resolves (w : World) (query : ReminderItem) (user : User)
    (st : State) :
  resolves w (guild_id query) (remind_id query) user ->
  utx_bound w = true ->
  exists embed, _get_embed w query st = (Ok embed, st).
Proof.
  intros Hr Hu. unfold _get_embed, bind, utx.
  rewrite (_get_member_resolves _ _ _ _ _ Hr), Hu.
  eexists. reflexivity.
Qed.

Lemma save_status_sets (item r : ReminderItem) (s : ReminderStatus)
    (sess : Session) :
  In r (rows (save_status item s sess)) -> idx r = idx item -> status r = s.
Proof.
  unfold save_status, update_row. simpl. intros Hin Hidx.
  apply in_map_iff in Hin. destruct Hin as [r0 [Hr0 _]].
  destruct (idx r0 =? idx item) eqn:E.
  - subst r. reflexivity.
  - subst r. apply Z.eqb_neq in E. contradiction.
Qed.

Lemma wait_for_Ok_check (check : Reaction -> User -> bool) (timeout : Z)
    (events : list ReactionAdd) (r : Reaction) (u : User) :
  wait_for check timeout events = Ok (r, u) ->
  check r u = true /\
  exists ev, In ev events /\ ev_reaction ev = r /\ ev_user ev = u /\
             elapsed ev < timeout.
Proof.
  induction events as [|ev later IH]; simpl; [discriminate|].
  destruct (timeout <=? elapsed ev) eqn:Et; [discriminate|].
  apply Z.leb_gt in Et.
  destruct (check (ev_reaction ev) (ev_user ev)) eqn:Ec.
  - intros H. injection H as <- <-. split; [exact Ec|].
    exists ev. repeat split; [left; reflexivity | exact Et].
  - intros H. destruct (IH H) as [Hc [ev' [Hin Hev]]].
    split; [exact Hc|]. exists ev'. split; [right; exact Hin | exact Hev].
Qed.

Lemma wait_for_skips (check : Reaction -> User -> bool) (timeout : Z)
    (pre rest : list ReactionAdd) :
  (forall e, In e pre ->
     elapsed e < timeout /\ check (ev_reaction e) (ev_user e) = false) ->
  wait_for check timeout (pre ++ rest) = wait_for check timeout rest.
Proof.
  induction pre as [|e pre IH]; simpl; intros H; [reflexivity|].
  destruct (H e (or_introl eq_refl)) as [Ht Hc].
  apply Z.leb_gt in Ht. rewrite Ht, Hc.
  apply IH. intros e' He'. apply H. right; exact He'.
Qed.

Lemma check_id_true (mid : Z) (query : ReminderItem) (r : Reaction) (u : User) :
  check_id mid query r u = true <->
  reaction_message_id r = mid /\
  (emoji r = confirm_emoji \/ emoji r = cancel_emoji) /\
  user_id u = remind_id query.
Proof.
  unfold check_id.
  rewrite !andb_true_iff, orb_true_iff, !Z.eqb_eq, !String.eqb_eq.
  tauto.
Qed.

Example ascii_upper_waiting : ascii_upper "waiting" = "WAITING".
Proof. reflexivity. Qed.

Example replace_empty : replace "abc" "" "-" = "-a-b-c-".
Proof. reflexivity. Qed.

Example replace_url :
  replace (permalink tea) "https://discord.com/channels/" "" = "7/70/700".
Proof. reflexivity. Qed.

End CogFacts.

Module DeliveryClaims.
Import Database Cog Spec Samples DatabaseFacts CogFacts.
Local Open Scope cog_scope.

(** C1: when the target resolves and the direct message is refused
    ([HTTPException] or [Forbidden]), [_remind] does not leave the record
    FAILED. With [utx] bound, the handler writes FAILED, logs the failure,
    and then runs on into the success path, which overwrites the status
    with REMINDED and logs a success; with [utx] unbound, as in the module
    as written, [_remind] raises [NameError] before it sends anything and
    the session is untouched. *)
Theorem remind_refused_send_ends_REMINDED
    (w : World) (item : ReminderItem) (user : User) (st : State) :
  resolves w (guild_id item) (remind_id item) user ->
  user_send w user <> Sent ->
  (utx_bound w = true ->
     exists embed,
       _remind w item st
       = (Ok tt,
          mkState
            (save_status item REMINDED (save_status item FAILED (session st)))
            (effects st ++
               [UserSend user embed (user_send w user);
                Log bot_log warning
                  (plain "Unable to remind user - blocked PM or not enough permissions.");
                Log guild_log info
                  (mkText "Reminder ID {id} succesfully sent to {user}"
                     [("id", AInt (idx item));
                      ("user", AStr (display_name user))])]))
       /\ forall r,
            In r (rows (session (snd (_remind w item st)))) ->
            idx r = idx item -> status r = REMINDED)
  /\ (utx_bound w = false -> _remind w item st = (Raise NameError, st)).
Proof.
  intros Hr Hs. split; intros Hu.
  - destruct (_get_embed_resolves w item user st Hr Hu) as [embed He].
    exists embed.
    assert (Hrun :
      _remind w item st
      = (Ok tt,
          mkState
            (save_status item REMINDED (save_status item FAILED (session st)))
            (effects st ++
               [UserSend user embed (user_send w user);
                Log bot_log warning
                  (plain "Unable to remind user - blocked PM or not enough permissions.");
                Log guild_log info
                  (mkText "Reminder ID {id} succesfully sent to {user}"
                     [("id", AInt (idx item));
                      ("user", AStr (display_name user))])]))).
    { unfold _remind, bind.
      rewrite (_get_member_resolves _ _ _ _ _ Hr).
      unfold utx. rewrite Hu. unfold ret. rewrite He.
      destruct (user_send w user); [contradiction| |];
        unfold emit, commit; simpl; rewrite <- !app_assoc; reflexivity. }
    split; [exact Hrun|].
    rewrite Hrun. intros r Hin Hidx.
    exact (save_status_sets item r REMINDED
             (save_status item FAILED (session st)) Hin Hidx).
  - unfold _remind, bind.
    rewrite (_get_member_resolves _ _ _ _ _ Hr).
    unfold utx. rewrite Hu. reflexivity.
Qed.

Lemma remind_refused_send_ends_REMINDED_witness :
  (exists embed,
     _remind (world true []) tea (state_of [tea])
     = (Ok tt,
        mkState
          (save_status tea REMINDED
             (save_status tea FAILED (session (state_of [tea]))))
          (effects (state_of [tea]) ++
             [UserSend alice embed RaisesForbidden;
              Log bot_log warning
                (plain "Unable to remind user - blocked PM or not enough permissions.");
              Log guild_log info
                (mkText "Reminder ID {id} succesfully sent to {user}"
                   [("id", AInt 1); ("user", AStr "alice")])])))
  /\ _remind (world false []) tea (state_of [tea])
     = (Raise NameError, state_of [tea]).
Proof.
  assert (Hr : forall b, resolves (world b []) (guild_id tea) (remind_id tea) alice).
  { intros b. exists (fun u => if u =? 8 then Some alice
                               else if u =? 9 then Some bob else None).
    split; [reflexivity | left; reflexivity]. }
  assert (Hs : forall b, user_send (world b []) alice <> Sent)
    by (intros b; discriminate).
  split.
  - destruct (proj1 (remind_refused_send_ends_REMINDED (world true []) tea alice
                       (state_of [tea]) (Hr true) (Hs true)) eq_refl)
      as [embed [H _]].
    exists embed. exact H.
  - exact (proj2 (remind_refused_send_ends_REMINDED (world false []) tea alice
                    (state_of [tea]) (Hr false) (Hs false)) eq_refl).
Defined.

(** C5 (as stated, refuted): with the clock at 1000 the horizon is
    1000 + 30 s = 30001000; a WAITING record due exactly then is not handed
    to delivery: the iteration only queries the store, no delivery is
    attempted and the record stays WAITING. *)
Lemma record_due_at_horizon_is_skipped :
  now (world true []) + timedelta_seconds 30 = remind_date on_horizon
  /\ reminder (world true []) (state_of [on_horizon])
     = (Ok tt,
        mkState (mkSession [on_horizon] 2)
                [StoreQuery (due_filter (world true []))])
  /\ ~ (forall w st r,
          In r (rows (session st)) -> status r = WAITING ->
          remind_date r <= now w + timedelta_seconds 30 ->
          In r (due_items w st)).
Proof.
  split; [reflexivity|]. split; [reflexivity|].
  intros H.
  specialize (H (world true []) (state_of [on_horizon]) on_horizon).
  assert (Hin : In on_horizon (due_items (world true []) (state_of [on_horizon]))).
  { apply H; [left; reflexivity | reflexivity | vm_compute; discriminate]. }
  vm_compute in Hin. exact Hin.
Qed.

(** C5 (amended): one iteration of the dispatcher queries the store once
    and runs delivery, in order, on exactly the records that are WAITING
    and due strictly before [now() + 30 s]; a record due at time T is
    therefore selected by every iteration whose horizon is later than T,
    and not by one whose horizon equals T. *)
Theorem reminder_selects_strictly_before_horizon (w : World) (st : State) :
  reminder w st
  = for_each (due_items w st) (_remind w)
      (mkState (session st) (effects st ++ [StoreQuery (due_filter w)]))
  /\ forall r,
       In r (due_items w st) <->
       In r (rows (session st)) /\ status r = WAITING /\
       remind_date r < now w + 30 * 1000000.
Proof.
  split; [reflexivity|].
  intros r. unfold due_items. rewrite get_all_rows_In.
  unfold matches, due_filter, holds, timedelta_seconds. simpl. tauto.
Qed.

End DeliveryClaims.

Module FlowClaims.
Import Database Cog Spec Samples DatabaseFacts CogFacts.
Local Open Scope cog_scope.

Lemma getitem_unknown_name (key : string) :
  ~ In key (map name ReminderStatus_members) ->
  ReminderStatus_getitem key = Raise KeyError.
Proof.
  intros H. cbv [map name ReminderStatus_members In] in H.
  assert (H1 : String.eqb "WAITING" key = false)
    by (apply String.eqb_neq; tauto).
  assert (H2 : String.eqb "REMINDED" key = false)
    by (apply String.eqb_neq; tauto).
  assert (H3 : String.eqb "FAILED" key = false)
    by (apply String.eqb_neq; tauto).
  cbv [ReminderStatus_getitem ReminderStatus_members find name].
  rewrite H1, H2, H3. reflexivity.
Qed.

(** C8 (as stated, refuted): the name "waiting" is not one of the
    enumerated names, yet with [str.upper] on ASCII text [reminders_get]
    accepts it: it queries the store for the caller's WAITING records and
    sends no "Invalid status" message. So a name outside the enumerated set
    does not always cause the error. *)
Lemma lowercase_status_name_is_accepted :
  ~ In "waiting" (map name ReminderStatus_members)
  /\ reminders_get (world false []) ctx_alice (Some "waiting") (state_of [])
     = (Ok tt,
        mkState (mkSession [] 2)
          [StoreQuery (mkFilter (Some 7) None (Some 8) (Some WAITING)
                         None None None None)])
  /\ ~ (forall w ctx s st,
          ~ In s (map name ReminderStatus_members) ->
          reminders_get w ctx (Some s) st
          = (Ok tt,
             mkState (session st) (effects st ++ [CtxSend invalid_status]))).
Proof.
  assert (Hout : ~ In "waiting" (map name ReminderStatus_members)).
  { cbv [map name ReminderStatus_members In].
    intros [H|[H|[H|[]]]]; discriminate H. }
  split; [exact Hout|]. split; [reflexivity|].
  intros H.
  specialize (H (world false []) ctx_alice "waiting" (state_of []) Hout).
  discriminate H.
Qed.

(** C8 (amended): a listing request that omits the status behaves as one
    that names "WAITING", which queries the WAITING records; the name is
    looked up after [str.upper], so it is matched without regard to case:
    a name whose upper-cased form is a member of [ReminderStatus] queries
    the records of that status, and a name whose upper-cased form is not a
    member makes [reminders_get] and [reminders_all] send the
    "Invalid status" message carrying "WAITING, REMINDED, FAILED" as its
    only effect: no store query is made and the session is unchanged. *)
Theorem listing_status_default_and_validation
    (w : World) (ctx : Context) (st : State) :
  (reminders_get w ctx None st = reminders_get w ctx (Some "WAITING") st /\
   reminders_all w ctx None st = reminders_all w ctx (Some "WAITING") st)
  /\ (upper w "WAITING" = "WAITING" ->
      reminders_get w ctx None st
      = (query <- get_all (mkFilter (Some (ctx_guild_id ctx)) None
                             (Some (user_id (ctx_author ctx))) (Some WAITING)
                             None None None None) ;;
         _send_reminder_list w ctx query) st
      /\ reminders_all w ctx None st
      = (query <- get_all (mkFilter (Some (ctx_guild_id ctx)) None None
                             (Some WAITING) None None None None) ;;
         _send_reminder_list w ctx query) st)
  /\ (forall s,
        ~ In (upper w s) (map name ReminderStatus_members) ->
        reminders_get w ctx (Some s) st
        = (Ok tt, mkState (session st) (effects st ++ [CtxSend invalid_status]))
        /\ reminders_all w ctx (Some s) st
        = (Ok tt, mkState (session st) (effects st ++ [CtxSend invalid_status])))
  /\ invalid_status
     = mkText "Invalid status. Allowed: {status}"
         [("status", AStr "WAITING, REMINDED, FAILED")]
  /\ (forall s status,
        ReminderStatus_getitem (upper w s) = Ok status ->
        reminders_get w ctx (Some s) st
        = (query <- get_all (mkFilter (Some (ctx_guild_id ctx)) None
                               (Some (user_id (ctx_author ctx))) (Some status)
                               None None None None) ;;
           _send_reminder_list w ctx query) st
        /\ reminders_all w ctx (Some s) st
        = (query <- get_all (mkFilter (Some (ctx_guild_id ctx)) None None
                               (Some status) None None None None) ;;
           _send_reminder_list w ctx query) st).
Proof.
  split; [split; reflexivity|].
  split; [|split; [|split]].
  - intros Hup. unfold reminders_get, reminders_all. rewrite Hup.
    split; reflexivity.
  - intros s Hs. unfold reminders_get, reminders_all.
    rewrite (getitem_unknown_name _ Hs). split; reflexivity.
  - reflexivity.
  - intros s status Hs. unfold reminders_get, reminders_all.
    rewrite Hs. split; reflexivity.
Qed.

Lemma listing_status_default_and_validation_witness :
  reminders_get (world false []) ctx_alice None (state_of [])
  = (Ok tt,
     mkState (mkSession [] 2)
       [StoreQuery (mkFilter (Some 7) None (Some 8) (Some WAITING)
                      None None None None)])
  /\ reminders_get (world false []) ctx_alice (Some "done") (state_of [tea])
  = (Ok tt, mkState (mkSession [tea] 2) [CtxSend invalid_status])
  /\ reminders_get (world false []) ctx_alice (Some "Failed") (state_of [])
  = (Ok tt,
     mkState (mkSession [] 2)
       [StoreQuery (mkFilter (Some 7) None (Some 8) (Some FAILED)
                      None None None None)]).
Proof.
  pose proof (listing_status_default_and_validation (world false []) ctx_alice
                (state_of [])) as [_ [Hdefault [_ [_ Hvalid]]]].
  pose proof (listing_status_default_and_validation (world false []) ctx_alice
                (state_of [tea])) as [_ [_ [Hinvalid _]]].
  split; [|split].
  - rewrite (proj1 (Hdefault eq_refl)). reflexivity.
  - apply (Hinvalid "done").
    cbv [map name ReminderStatus_members In].
    intros [H|[H|[H|[]]]]; discriminate H.
  - rewrite (proj1 (Hvalid "Failed" FAILED eq_refl)). reflexivity.
Defined.

(** C4: when no record of the caller's guild carries the requested id,
    [reschedule] and [delete] do not report a missing reminder: the lookup
    answers the empty list, the [is None] test lets it through, and
    [query[0]] raises [IndexError]. The only effect is the store query; the
    "does not exists" message is not sent; the session is unchanged. *)
Theorem absent_id_raises_IndexError
    (w : World) (ctx : Context) (i : Z) (datetime_str : string) (st : State) :
  (forall r, In r (rows (session st)) ->
             ~ (guild_id r = ctx_guild_id ctx /\ idx r = i)) ->
  reschedule w ctx i datetime_str st
  = (Raise IndexError,
     mkState (session st) (effects st ++ [StoreQuery (lookup_filter ctx i)]))
  /\ delete w ctx i st
  = (Raise IndexError,
     mkState (session st) (effects st ++ [StoreQuery (lookup_filter ctx i)])).
Proof.
  intros Habsent.
  assert (E : get_all_rows (lookup_filter ctx i) (rows (session st)) = []).
  { destruct (get_all_rows (lookup_filter ctx i) (rows (session st)))
      as [|r l] eqn:E; [reflexivity|].
    exfalso.
    assert (Hr : In r (get_all_rows (lookup_filter ctx i) (rows (session st))))
      by (rewrite E; left; reflexivity).
    apply get_all_rows_In in Hr. destruct Hr as [Hin Hm].
    apply (Habsent r Hin).
    unfold matches, lookup_filter, holds in Hm. simpl in Hm. tauto. }
  unfold reschedule, delete, bind, get_all, is_None.
  fold (lookup_filter ctx i). rewrite E. split; reflexivity.
Qed.

Lemma absent_id_raises_IndexError_witness :
  reschedule (world true []) ctx_alice 5 "tomorrow" (state_of [tea])
  = (Raise IndexError,
     mkState (mkSession [tea] 2) [StoreQuery (lookup_filter ctx_alice 5)])
  /\ delete (world true []) ctx_alice 5 (state_of [tea])
  = (Raise IndexError,
     mkState (mkSession [tea] 2) [StoreQuery (lookup_filter ctx_alice 5)]).
Proof.
  apply (absent_id_raises_IndexError (world true []) ctx_alice 5 "tomorrow"
           (state_of [tea])).
  simpl. intros r [<-|[]] [_ H]. discriminate H.
Defined.

Lemma cancel_is_not_confirm (r : Reaction) :
  emoji r = cancel_emoji -> String.eqb (emoji r) confirm_emoji = false.
Proof. intros ->. reflexivity. Qed.

Lemma decision_on_match (query : ReminderItem) (mid : Z)
    (pre post : list ReactionAdd) (ev : ReactionAdd) :
  (forall e, In e pre ->
     elapsed e < 60 /\
     check_id mid query (ev_reaction e) (ev_user e) = false) ->
  elapsed ev < 60 ->
  check_id mid query (ev_reaction ev) (ev_user ev) = true ->
  wait_for (check_id mid query) 60 (pre ++ ev :: post)
  = Ok (ev_reaction ev, ev_user ev).
Proof.
  intros Hpre Ht Hc. rewrite (wait_for_skips _ _ _ _ Hpre). simpl.
  apply Z.leb_gt in Ht. rewrite Ht, Hc. reflexivity.
Qed.

(** What [ReminderItem.reschedule] does to the rows of the table. *)
Lemma reschedule_rows (self : ReminderItem) (d : datetime) (s : Session) :
  (forall r, In r (rows s) -> idx r = idx self ->
     In (mkItem (idx r) (guild_id r) (author_id r) (remind_id r) (permalink r)
                (message r) (origin_date r) d (status r))
        (rows (Database.reschedule self d s)))
  /\ (forall r', In r' (rows (Database.reschedule self d s)) ->
                 idx r' = idx self -> remind_date r' = d)
  /\ (forall r, idx r <> idx self ->
        (In r (rows (Database.reschedule self d s)) <-> In r (rows s))).
Proof.
  unfold Database.reschedule, update_row. cbn [rows].
  split; [|split].
  - intros r Hin Hi. apply in_map_iff. exists r. split; [|exact Hin].
    apply Z.eqb_eq in Hi. rewrite Hi. reflexivity.
  - intros r' Hin Hi. apply in_map_iff in Hin.
    destruct Hin as [r [Hr _]].
    destruct (idx r =? idx self) eqn:E.
    + subst r'. reflexivity.
    + subst r'. apply Z.eqb_neq in E. contradiction.
  - intros r Hne. rewrite in_map_iff. split.
    + intros [x [Hx Hin]]. destruct (idx x =? idx self) eqn:E.
      * subst r. apply Z.eqb_eq in E. simpl in Hne. contradiction.
      * subst r. exact Hin.
    + intros Hin. exists r. split; [|exact Hin].
      apply Z.eqb_neq in Hne. rewrite Hne. reflexivity.
Qed.

(** What [ReminderItem.delete] does to the rows of the table. *)
Lemma delete_rows (self : ReminderItem) (s : Session) (r : ReminderItem) :
  In r (rows (Database.delete self s)) <-> In r (rows s) /\ idx r <> idx self.
Proof.
  unfold Database.delete. cbn [rows]. rewrite filter_In, negb_true_iff.
  rewrite Z.eqb_neq. tauto.
Qed.

(** C7: the await-decision step of [reschedule] and [delete]. Let [pre] be
    reactions that arrive in time but fail [check_id]. Then
    (a) a following in-time confirm by the target on the proposal message
        applies the mutation: after [reschedule] every row that carries the
        record's key has the new due date, with every other field as
        before, and the other rows are the same; after [delete] no row
        carries the record's key and the other rows are the same;
    (b) a following in-time cancel by the target on the proposal message
        leaves the state as it was;
    (c) if nothing else arrives, or the next reaction arrives after the 60
        seconds, the step reports a time-out and the session is unchanged;
    (d) an in-time reaction by another user, or on another message, is
        skipped: the step behaves as if it had not arrived;
    (e) only a confirm or cancel by the target on the proposal message ends
        the wait. *)
Theorem decision_step_resolution
    (query : ReminderItem) (date : datetime) (mid : Z)
    (pre post : list ReactionAdd) (ev : ReactionAdd) (st : State) :
  (forall e, In e pre ->
     elapsed e < 60 /\
     check_id mid query (ev_reaction e) (ev_user e) = false) ->
  (elapsed ev < 60 ->
   reaction_message_id (ev_reaction ev) = mid ->
   user_id (ev_user ev) = remind_id query ->
   (emoji (ev_reaction ev) = confirm_emoji ->
      (session (snd (reschedule_decision query date mid (pre ++ ev :: post) st))
       = Database.reschedule query date (session st)
       /\ (forall r, In r (rows (session st)) -> idx r = idx query ->
              In (mkItem (idx r) (guild_id r) (author_id r) (remind_id r)
                         (permalink r) (message r) (origin_date r) date
                         (status r))
                 (rows (session (snd (reschedule_decision query date mid
                                        (pre ++ ev :: post) st)))))
       /\ (forall r',
              In r' (rows (session (snd (reschedule_decision query date mid
                                           (pre ++ ev :: post) st)))) ->
              idx r' = idx query -> remind_date r' = date)
       /\ (forall r, idx r <> idx query ->
              (In r (rows (session (snd (reschedule_decision query date mid
                                           (pre ++ ev :: post) st))))
               <-> In r (rows (session st)))))
      /\ (session (snd (delete_decision query mid (pre ++ ev :: post) st))
          = Database.delete query (session st)
          /\ (forall r,
                 In r (rows (session (snd (delete_decision query mid
                                             (pre ++ ev :: post) st))))
                 <-> In r (rows (session st)) /\ idx r <> idx query)))
   /\ (emoji (ev_reaction ev) = cancel_emoji ->
      reschedule_decision query date mid (pre ++ ev :: post) st = (Ok tt, st)
      /\ delete_decision query mid (pre ++ ev :: post) st = (Ok tt, st)))
  /\ (reschedule_decision query date mid pre st
      = (Ok tt, mkState (session st)
                  (effects st ++ [CtxSend (plain "Reschedule timed out.")]))
      /\ delete_decision query mid pre st
      = (Ok tt, mkState (session st)
                  (effects st ++ [CtxSend (plain "Deleting timed out.")])))
  /\ (60 <= elapsed ev ->
      reschedule_decision query date mid (pre ++ ev :: post) st
      = (Ok tt, mkState (session st)
                  (effects st ++ [CtxSend (plain "Reschedule timed out.")]))
      /\ delete_decision query mid (pre ++ ev :: post) st
      = (Ok tt, mkState (session st)
                  (effects st ++ [CtxSend (plain "Deleting timed out.")])))
  /\ (elapsed ev < 60 ->
      user_id (ev_user ev) <> remind_id query \/
      reaction_message_id (ev_reaction ev) <> mid ->
      reschedule_decision query date mid (pre ++ ev :: post) st
      = reschedule_decision query date mid post st
      /\ delete_decision query mid (pre ++ ev :: post) st
      = delete_decision query mid post st)
  /\ (forall events r u,
        wait_for (check_id mid query) 60 events = Ok (r, u) ->
        reaction_message_id r = mid /\
        (emoji r = confirm_emoji \/ emoji r = cancel_emoji) /\
        user_id u = remind_id query).
Proof.
  intros Hpre.
  assert (Hmatch : elapsed ev < 60 ->
                   reaction_message_id (ev_reaction ev) = mid ->
                   user_id (ev_user ev) = remind_id query ->
                   emoji (ev_reaction ev) = confirm_emoji \/
                   emoji (ev_reaction ev) = cancel_emoji ->
                   wait_for (check_id mid query) 60 (pre ++ ev :: post)
                   = Ok (ev_reaction ev, ev_user ev)).
  { intros Ht Hm Hu He. apply decision_on_match; [exact Hpre | exact Ht |].
    apply check_id_true. tauto. }
  assert (Hlate : 60 <= elapsed ev ->
                  wait_for (check_id mid query) 60 (pre ++ ev :: post)
                  = Raise TimeoutError).
  { intros Ht. rewrite (wait_for_skips _ _ _ _ Hpre). simpl.
    apply Z.leb_le in Ht. rewrite Ht. reflexivity. }
  assert (Hother : elapsed ev < 60 ->
                   user_id (ev_user ev) <> remind_id query \/
                   reaction_message_id (ev_reaction ev) <> mid ->
                   wait_for (check_id mid query) 60 (pre ++ ev :: post)
                   = wait_for (check_id mid query) 60 post).
  { intros Ht Hx. rewrite (wait_for_skips _ _ _ _ Hpre). simpl.
    apply Z.leb_gt in Ht. rewrite Ht.
    replace (check_id mid query (ev_reaction ev) (ev_user ev)) with false;
      [reflexivity|].
    symmetry. apply not_true_is_false. rewrite check_id_true. tauto. }
  assert (Hnone : wait_for (check_id mid query) 60 pre = Raise TimeoutError).
  { rewrite <- (app_nil_r pre), (wait_for_skips _ _ _ _ Hpre). reflexivity. }
  split; [|split; [|split; [|split]]].
  - intros Ht Hm Hu. split; intros He.
    + assert (ER : session (snd (reschedule_decision query date mid
                                   (pre ++ ev :: post) st))
                   = Database.reschedule query date (session st)).
      { unfold reschedule_decision.
        rewrite (Hmatch Ht Hm Hu (or_introl He)), He. reflexivity. }
      assert (ED : session (snd (delete_decision query mid
                                   (pre ++ ev :: post) st))
                   = Database.delete query (session st)).
      { unfold delete_decision.
        rewrite (Hmatch Ht Hm Hu (or_introl He)), He. reflexivity. }
      rewrite ER, ED.
      destruct (reschedule_rows query date (session st)) as [R1 [R2 R3]].
      split; [split; [reflexivity | split; [exact R1 | split; [exact R2 | exact R3]]]|].
      split; [reflexivity|]. intros r. apply delete_rows.
    + unfold reschedule_decision, delete_decision.
      rewrite (Hmatch Ht Hm Hu (or_intror He)).
      rewrite (cancel_is_not_confirm _ He), He. split; reflexivity.
  - unfold reschedule_decision, delete_decision. rewrite Hnone.
    split; reflexivity.
  - intros Ht. unfold reschedule_decision, delete_decision.
    rewrite (Hlate Ht). split; reflexivity.
  - intros Ht Hx. unfold reschedule_decision, delete_decision.
    rewrite (Hother Ht Hx). split; reflexivity.
  - intros events r u H.
    apply wait_for_Ok_check in H. destruct H as [H _].
    apply check_id_true in H. exact H.
Qed.

Lemma reschedule_decision_cases (query : ReminderItem) (date : datetime)
    (mid : Z) (events : list ReactionAdd) (st : State) :
  session (snd (reschedule_decision query date mid events st)) = session st
  \/ exists r u,
       wait_for (check_id mid query) 60 events = Ok (r, u) /\
       emoji r = confirm_emoji /\
       session (snd (reschedule_decision query date mid events st))
       = Database.reschedule query date (session st).
Proof.
  unfold reschedule_decision.
  destruct (wait_for (check_id mid query) 60 events) as [[r u]|e] eqn:E.
  - destruct (String.eqb_spec (emoji r) confirm_emoji) as [Hc|Hc].
    + right. exists r, u. repeat split. exact Hc.
    + left. destruct (String.eqb (emoji r) cancel_emoji); reflexivity.
  - left. destruct e; reflexivity.
Qed.

Lemma reschedule_flow_cases
    (w : World) (ctx : Context) (i : Z) (datetime_str : string) (st : State) :
  session (snd (reschedule w ctx i datetime_str st)) = session st
  \/ exists query date r u,
       hd_error (get_all_rows (lookup_filter ctx i) (rows (session st)))
       = Some query /\
       remind_id query = user_id (ctx_author ctx) /\
       parse_datetime w datetime_str = Some date /\
       now w <= date /\
       wait_for (check_id (proposal_message_id w) query) 60 (reaction_adds w)
       = Ok (r, u) /\
       emoji r = confirm_emoji /\
       session (snd (reschedule w ctx i datetime_str st))
       = Database.reschedule query date (session st).
Proof.
  unfold reschedule, bind, get_all, is_None.
  fold (lookup_filter ctx i).
  destruct (get_all_rows (lookup_filter ctx i) (rows (session st)))
    as [|query rest]; [left; reflexivity|].
  cbn [getitem0 ret hd_error].
  destruct (remind_id query =? user_id (ctx_author ctx)) eqn:Eo;
    [|left; reflexivity].
  apply Z.eqb_eq in Eo. cbn [negb].
  destruct (parse_datetime w datetime_str) as [date|] eqn:Ep;
    [|left; reflexivity].
  destruct (date <? now w) eqn:Ed; [left; reflexivity|].
  apply Z.ltb_ge in Ed.
  match goal with
  | |- context [_get_embed w query ?s1] =>
      pose proof (_get_embed_state w query s1) as Hs;
      destruct (_get_embed w query s1) as [[embed|e] st2]
  end; simpl in Hs; subst st2; [|left; reflexivity].
  unfold propose, bind, emit, ret. cbn [fst snd session effects].
  match goal with
  | |- context [reschedule_decision query date ?m ?evs ?s3] =>
      destruct (reschedule_decision_cases query date m evs s3)
        as [Hd|[r [u [Hw [He Hd]]]]];
      destruct (reschedule_decision query date m evs s3) as [[[]|e] st4]
  end; simpl in Hd; cbn [fst snd session effects].
  - left. exact Hd.
  - left. exact Hd.
  - right. exists query, date, r, u. repeat split; assumption.
  - right. exists query, date, r, u. repeat split; assumption.
Qed.

(** With [utx] unbound, as in the module as written, rendering the proposal
    raises before anything is presented: neither flow ever changes the
    session. *)
Lemma flows_without_utx_change_nothing
    (w : World) (ctx : Context) (i : Z) (datetime_str : string) (st : State) :
  utx_bound w = false ->
  session (snd (reschedule w ctx i datetime_str st)) = session st /\
  session (snd (delete w ctx i st)) = session st.
Proof.
  intros Hu.
  unfold reschedule, delete, bind, get_all, is_None.
  fold (lookup_filter ctx i).
  destruct (get_all_rows (lookup_filter ctx i) (rows (session st)))
    as [|query rest]; [split; reflexivity|].
  cbn [getitem0 ret].
  destruct (remind_id query =? user_id (ctx_author ctx));
    [|split; reflexivity].
  cbn [negb].
  match goal with
  | |- context [_get_embed w query ?s1] =>
      destruct (_get_embed_unbound w query s1 Hu) as [e He]; rewrite He
  end.
  split; [|reflexivity].
  destruct (parse_datetime w datetime_str) as [date|]; [|reflexivity].
  destruct (date <? now w); [reflexivity|].
  rewrite He. reflexivity.
Qed.

Lemma reschedule_flow_confirmed
    (w : World) (ctx : Context) (i : Z) (datetime_str : string) (st : State)
    (query : ReminderItem) (date : datetime) (user : User)
    (r : Reaction) (u : User) :
  hd_error (get_all_rows (lookup_filter ctx i) (rows (session st)))
  = Some query ->
  remind_id query = user_id (ctx_author ctx) ->
  parse_datetime w datetime_str = Some date ->
  now w <= date ->
  resolves w (guild_id query) (remind_id query) user ->
  utx_bound w = true ->
  wait_for (check_id (proposal_message_id w) query) 60 (reaction_adds w)
  = Ok (r, u) ->
  emoji r = confirm_emoji ->
  fst (reschedule w ctx i datetime_str st) = Ok tt /\
  session (snd (reschedule w ctx i datetime_str st))
  = Database.reschedule query date (session st).
Proof.
  intros Hq Ho Hp Hd Hr Hu Hw He.
  unfold reschedule, bind, get_all, is_None.
  fold (lookup_filter ctx i).
  destruct (get_all_rows (lookup_filter ctx i) (rows (session st)))
    as [|q rest]; [discriminate Hq|].
  injection Hq as ->.
  cbn [getitem0 ret].
  apply Z.eqb_eq in Ho. rewrite Ho. cbn [negb].
  rewrite Hp. apply Z.ltb_ge in Hd. rewrite Hd.
  match goal with
  | |- context [_get_embed w query ?s1] =>
      destruct (_get_embed_resolves w query user s1 Hr Hu) as [embed Hg];
      rewrite Hg
  end.
  unfold propose, bind, emit, ret, reschedule_decision.
  rewrite Hw, He. split; reflexivity.
Qed.

(** C3 (as stated, refuted): neither the store nor the flow looks at the
    record's status, and the store accepts any date. [stale] is a FAILED
    record: [ReminderItem.reschedule] moves it to date 5, earlier than its
    creation; the command flow, once the target confirms, moves it to
    [tomorrow]; and a new date equal to the clock reading (the input "now")
    is accepted for the WAITING record [tea]. *)
Lemma reschedule_mutates_terminal_record :
  status stale = FAILED
  /\ Database.reschedule stale 5 (mkSession [stale] 2)
     = mkSession [set_remind_date 5 stale] 2
  /\ session (snd (reschedule (world true [confirm_by alice 500 3]) ctx_alice 1
                     "tomorrow" (state_of [stale])))
     = mkSession [set_remind_date tomorrow stale] 2
  /\ session (snd (reschedule (world true [confirm_by alice 500 3]) ctx_alice 1
                     "now" (state_of [tea])))
     = mkSession [set_remind_date (now (world true [])) tea] 2
  /\ ~ (forall self d sess,
          status self <> WAITING -> Database.reschedule self d sess = sess).
Proof.
  split; [reflexivity|]. split; [reflexivity|].
  split; [reflexivity|]. split; [reflexivity|].
  intros H.
  specialize (H stale 5 (mkSession [stale] 2)).
  assert (Hne : status stale <> WAITING) by discriminate.
  specialize (H Hne). discriminate H.
Qed.

(** C3 (amended): the store's [reschedule] gives the record whatever date
    it is handed, whatever the record's status. The command flow changes
    the session only when the requester is the record's target, the parsed
    date is not earlier than the clock reading ([now <= date]), and the
    target confirms on the proposal in time; the change is then exactly the
    store's [reschedule], for a record of any status. A date strictly
    earlier than the clock reading leaves the session unchanged. *)
Theorem reschedule_checks_date_not_status
    (w : World) (ctx : Context) (i : Z) (datetime_str : string) (st : State) :
  (forall self d sess,
     In self (rows sess) ->
     In (set_remind_date d self) (rows (Database.reschedule self d sess)) /\
     remind_date (set_remind_date d self) = d /\
     status (set_remind_date d self) = status self)
  /\ (forall date,
        parse_datetime w datetime_str = Some date -> date < now w ->
        session (snd (reschedule w ctx i datetime_str st)) = session st)
  /\ (session (snd (reschedule w ctx i datetime_str st)) <> session st ->
      exists query date r u,
        hd_error (get_all_rows (lookup_filter ctx i) (rows (session st)))
        = Some query /\
        remind_id query = user_id (ctx_author ctx) /\
        parse_datetime w datetime_str = Some date /\
        now w <= date /\
        wait_for (check_id (proposal_message_id w) query) 60 (reaction_adds w)
        = Ok (r, u) /\
        emoji r = confirm_emoji /\
        session (snd (reschedule w ctx i datetime_str st))
        = Database.reschedule query date (session st))
  /\ (forall query date user r u,
        hd_error (get_all_rows (lookup_filter ctx i) (rows (session st)))
        = Some query ->
        remind_id query = user_id (ctx_author ctx) ->
        parse_datetime w datetime_str = Some date ->
        now w <= date ->
        resolves w (guild_id query) (remind_id query) user ->
        utx_bound w = true ->
        wait_for (check_id (proposal_message_id w) query) 60 (reaction_adds w)
        = Ok (r, u) ->
        emoji r = confirm_emoji ->
        session (snd (reschedule w ctx i datetime_str st))
        = Database.reschedule query date (session st)).
Proof.
  split; [|split; [|split]].
  - intros self d sess Hin. split; [|split; reflexivity].
    unfold Database.reschedule, update_row. cbn [rows].
    apply in_map_iff. exists self. rewrite Z.eqb_refl. split; [reflexivity|exact Hin].
  - intros date Hp Hd.
    destruct (reschedule_flow_cases w ctx i datetime_str st)
      as [H|[q [d' [r [u [_ [_ [Hp' [Hd' _]]]]]]]]]; [exact H|].
    rewrite Hp in Hp'. injection Hp' as <-. lia.
  - intros Hne.
    destruct (reschedule_flow_cases w ctx i datetime_str st) as [H|H];
      [contradiction | exact H].
  - intros query date user r u Hq Ho Hp Hd Hr Hu Hw He.
    exact (proj2 (reschedule_flow_confirmed w ctx i datetime_str st query date
                    user r u Hq Ho Hp Hd Hr Hu Hw He)).
Qed.

Lemma reschedule_checks_date_not_status_witness :
  session (snd (reschedule (world true [confirm_by alice 500 3]) ctx_alice 1
                  "epoch" (state_of [stale])))
  = session (state_of [stale])
  /\ (exists query date,
        status query = FAILED /\ now (world true []) <= date /\
        session (snd (reschedule (world true [confirm_by alice 500 3])
                        ctx_alice 1 "tomorrow" (state_of [stale])))
        = Database.reschedule query date (session (state_of [stale]))).
Proof.
  split.
  - apply (proj1 (proj2 (reschedule_checks_date_not_status
                           (world true [confirm_by alice 500 3]) ctx_alice 1
                           "epoch" (state_of [stale]))) 0).
    + reflexivity.
    + reflexivity.
  - destruct (proj1 (proj2 (proj2 (reschedule_checks_date_not_status
                           (world true [confirm_by alice 500 3]) ctx_alice 1
                           "tomorrow" (state_of [stale])))))
      as [query [date [r [u [Hq [_ [_ [Hd [_ [_ Hs]]]]]]]]]].
    + intros H. discriminate H.
    + exists query, date. injection Hq as <-.
      split; [reflexivity|]. split; [exact Hd | exact Hs].
Defined.

Lemma decision_step_resolution_witness :
  In (mkItem 1 7 8 8 "https://discord.com/channels/7/70/700" (Some "tea")
             100 tomorrow WAITING)
     (rows (session (snd (reschedule_decision tea tomorrow 500
                            ([confirm_by bob 500 1; confirm_by alice 499 2]
                             ++ confirm_by alice 500 3 :: [])
                            (state_of [tea; milk])))))
  /\ ~ In tea
       (rows (session (snd (delete_decision tea 500
                              ([confirm_by bob 500 1; confirm_by alice 499 2]
                               ++ confirm_by alice 500 3 :: [])
                              (state_of [tea; milk])))))
  /\ In milk
       (rows (session (snd (delete_decision tea 500
                              ([confirm_by bob 500 1; confirm_by alice 499 2]
                               ++ confirm_by alice 500 3 :: [])
                              (state_of [tea; milk])))))
  /\ delete_decision tea 500
       ([confirm_by bob 500 1; confirm_by alice 499 2]
        ++ cancel_by alice 500 3 :: [confirm_by alice 500 4])
       (state_of [tea])
     = (Ok tt, state_of [tea])
  /\ delete_decision tea 500
       ([confirm_by bob 500 1; confirm_by alice 499 2]
        ++ confirm_by alice 500 60 :: [])
       (state_of [tea])
     = (Ok tt, mkState (session (state_of [tea]))
                 (effects (state_of [tea])
                  ++ [CtxSend (plain "Deleting timed out.")])).
Proof.
  assert (Hpre : forall e,
            In e [confirm_by bob 500 1; confirm_by alice 499 2] ->
            elapsed e < 60 /\
            check_id 500 tea (ev_reaction e) (ev_user e) = false).
  { intros e [<-|[<-|[]]]; split; reflexivity. }
  pose proof (proj1 (proj1 (decision_step_resolution tea tomorrow 500 _ []
                              (confirm_by alice 500 3) (state_of [tea; milk])
                              Hpre)
                       eq_refl eq_refl eq_refl) eq_refl)
    as [[_ [HR _]] [_ HD]].
  split; [|split; [|split; [|split]]].
  - exact (HR tea (or_introl eq_refl) eq_refl).
  - intros Hin. apply HD in Hin. destruct Hin as [_ Hne]. apply Hne.
    reflexivity.
  - apply HD. split; [right; left; reflexivity | discriminate].
  - pose proof (proj1 (decision_step_resolution tea tomorrow 500 _
                         [confirm_by alice 500 4] (cancel_by alice 500 3)
                         (state_of [tea]) Hpre)) as H.
    exact (proj2 (proj2 (H eq_refl eq_refl eq_refl) eq_refl)).
  - destruct (decision_step_resolution tea tomorrow 500 _ []
                (confirm_by alice 500 60) (state_of [tea]) Hpre)
      as [_ [_ [H _]]].
    apply H. discriminate.
Defined.

End FlowClaims.

(** * Further properties of the store *)

Module StoreExtraFacts.
Import Database Cog Spec DatabaseFacts.

Lemma filter_if_test {A : Type} (arg : option A) (p : A -> ReminderItem -> bool)
    (l : list ReminderItem) :
  filter_if arg p l = filter (fun r => test arg (fun a => p a r)) l.
Proof.
  destruct arg as [a|]; simpl; [reflexivity|].
  induction l as [|h t IH]; simpl; [reflexivity | f_equal; exact IH].
Qed.

Lemma filter_filter_andb {A : Type} (p q : A -> bool) (l : list A) :
  filter p (filter q l) = filter (fun x => q x && p x) l.
Proof.
  induction l as [|h t IH]; simpl; [reflexivity|].
  destruct (q h); simpl; [destruct (p h)|]; rewrite IH; reflexivity.
Qed.

Lemma filter_swap {A : Type} (p q : A -> bool) (l : list A) :
  filter p (filter q l) = filter q (filter p l).
Proof.
  rewrite !filter_filter_andb. apply filter_ext. intros x. apply andb_comm.
Qed.

(** [get_all] is one filter by the conjunction of its criteria, sorted. *)
Lemma get_all_rows_eq (f : Filter) (table : list ReminderItem) :
  get_all_rows f table = order_by_remind_date_desc (filter (matchesb f) table).
Proof.
  unfold get_all_rows. rewrite !filter_if_test, !filter_filter_andb.
  f_equal. apply filter_ext. intros r. unfold matchesb.
  rewrite !andb_assoc. reflexivity.
Qed.

Lemma test_holds {A : Type} (arg : option A) (p : A -> bool) (P : A -> Prop) :
  (forall a, p a = true <-> P a) -> test arg p = true <-> holds arg P.
Proof. intros H. destruct arg as [a|]; simpl; [apply H | tauto]. Qed.

Lemma matchesb_spec (f : Filter) (r : ReminderItem) :
  matchesb f r = true <-> matches f r.
Proof.
  unfold matchesb, matches. rewrite !andb_true_iff.
  rewrite (test_holds (f_guild_id f) _ (fun g => guild_id r = g))
    by (intros; apply Z.eqb_eq).
  rewrite (test_holds (f_idx f) _ (fun i => idx r = i))
    by (intros; apply Z.eqb_eq).
  rewrite (test_holds (f_remind_id f) _ (fun u => remind_id r = u))
    by (intros; apply Z.eqb_eq).
  rewrite (test_holds (f_status f) _ (fun s => status r = s))
    by (intros; apply status_eqb_eq).
  rewrite (test_holds (f_min_origin_date f) _ (fun d => d < origin_date r))
    by (intros; apply Z.ltb_lt).
  rewrite (test_holds (f_max_origin_date f) _ (fun d => origin_date r < d))
    by (intros; apply Z.ltb_lt).
  rewrite (test_holds (f_min_remind_date f) _ (fun d => d < remind_date r))
    by (intros; apply Z.ltb_lt).
  rewrite (test_holds (f_max_remind_date f) _ (fun d => remind_date r < d))
    by (intros; apply Z.ltb_lt).
  tauto.
Qed.

Lemma insert_desc_front (r : ReminderItem) (l : list ReminderItem) :
  Forall (fun h => remind_date h <= remind_date r) l ->
  insert_desc r l = r :: l.
Proof.
  intros H. destruct l as [|h t]; [reflexivity|]. simpl.
  inversion H as [|? ? Hh _]; subst.
  apply Z.leb_le in Hh. rewrite Hh. reflexivity.
Qed.

Lemma filter_insert_desc (p : ReminderItem -> bool) (r : ReminderItem)
    (l : list ReminderItem) :
  StronglySorted date_desc l ->
  filter p (insert_desc r l)
  = if p r then insert_desc r (filter p l) else filter p l.
Proof.
  induction 1 as [|h t Hs IH Hh]; simpl.
  - destruct (p r); reflexivity.
  - destruct (remind_date h <=? remind_date r) eqn:E.
    + simpl. destruct (p r); [|reflexivity].
      apply Z.leb_le in E. symmetry. apply insert_desc_front.
      assert (Hall : Forall (fun x => remind_date x <= remind_date r) (h :: t)).
      { constructor; [exact E|].
        rewrite Forall_forall in *. intros y Hy.
        specialize (Hh y Hy). unfold date_desc in Hh. lia. }
      rewrite Forall_forall in *. intros y Hy.
      apply Hall. change (In y (filter p (h :: t))) in Hy.
      apply filter_In in Hy. tauto.
    + simpl. rewrite IH. destruct (p h); destruct (p r); simpl;
        try rewrite E; reflexivity.
Qed.

(** Filtering commutes with the ordering of [get_all]. *)
Lemma order_by_filter (p : ReminderItem -> bool) (l : list ReminderItem) :
  filter p (order_by_remind_date_desc l)
  = order_by_remind_date_desc (filter p l).
Proof.
  induction l as [|h t IH]; simpl; [reflexivity|].
  rewrite filter_insert_desc by apply order_by_sorted.
  rewrite IH. destruct (p h); reflexivity.
Qed.

Lemma idx_filter_unique (l : list ReminderItem) (x : ReminderItem) :
  NoDup (map idx l) -> In x l ->
  filter (fun r => idx r =? idx x) l = [x].
Proof.
  induction l as [|h t IH]; simpl; intros Hnd Hin; [contradiction|].
  inversion Hnd as [|? ? Hh Ht]; subst.
  assert (Hnone : forall y, ~ In (idx y) (map idx t) ->
                            filter (fun r => idx r =? idx y) t = []).
  { intros y Hy. clear -Hy. induction t as [|a t IHt]; simpl; [reflexivity|].
    simpl in Hy. destruct (idx a =? idx y) eqn:E.
    - apply Z.eqb_eq in E. tauto.
    - apply IHt. tauto. }
  destruct Hin as [->|Hin].
  - rewrite Z.eqb_refl, (Hnone x Hh). reflexivity.
  - destruct (idx h =? idx x) eqn:E.
    + apply Z.eqb_eq in E. exfalso. apply Hh. rewrite E.
      apply in_map, Hin.
    + apply IH; assumption.
Qed.

Lemma update_row_idx (i : Z) (upd : ReminderItem -> ReminderItem)
    (s : Session) :
  (forall r, idx (upd r) = idx r) ->
  map idx (rows (update_row i upd s)) = map idx (rows s).
Proof.
  intros H. unfold update_row. simpl. rewrite map_map.
  apply map_ext. intros r. destruct (idx r =? i); [apply H | reflexivity].
Qed.

Lemma update_row_well_formed (i : Z) (upd : ReminderItem -> ReminderItem)
    (s : Session) :
  (forall r, idx (upd r) = idx r) ->
  well_formed s -> well_formed (update_row i upd s).
Proof.
  intros H [Hnd Hlt]. split.
  - rewrite update_row_idx by exact H. exact Hnd.
  - unfold update_row. simpl. rewrite Forall_forall in *.
    intros r Hr. apply in_map_iff in Hr. destruct Hr as [r0 [<- Hr0]].
    specialize (Hlt r0 Hr0).
    destruct (idx r0 =? i); [rewrite H|]; exact Hlt.
Qed.

Lemma filter_none {A : Type} (p : A -> bool) (l : list A) :
  (forall x, In x l -> p x = false) -> filter p l = [].
Proof.
  induction l as [|h t IH]; simpl; intros H; [reflexivity|].
  rewrite (H h (or_introl eq_refl)). apply IH.
  intros x Hx. apply H. right; exact Hx.
Qed.

Lemma get_all_rows_delete (self : ReminderItem) (s : Session) (f : Filter) :
  get_all_rows f (rows (Database.delete self s))
  = filter (fun r => negb (idx r =? idx self)) (get_all_rows f (rows s)).
Proof.
  rewrite !get_all_rows_eq. simpl.
  rewrite order_by_filter. f_equal. apply filter_swap.
Qed.

Lemma get_all_rows_delete_key (self : ReminderItem) (s : Session)
    (f : Filter) :
  f_idx f = Some (idx self) ->
  get_all_rows f (rows (Database.delete self s)) = [].
Proof.
  intros Hf. rewrite get_all_rows_delete. apply filter_none.
  intros r Hr. apply get_all_rows_In in Hr. destruct Hr as [_ Hm].
  destruct Hm as [_ [Hi _]]. rewrite Hf in Hi. simpl in Hi.
  rewrite Hi, Z.eqb_refl. reflexivity.
Qed.

(** A member of [ReminderStatus] is found under its own name, and only
    under that name. *)
Lemma getitem_name (s : ReminderStatus) :
  ReminderStatus_getitem (name s) = Ok s.
Proof. destruct s; reflexivity. Qed.

End StoreExtraFacts.

Module StoreExtras.
Import Database Cog Spec Samples DatabaseFacts StoreExtraFacts.

(** Dropping rows keeps the remaining keys distinct. *)
Lemma kept_keys_distinct (keep : ReminderItem -> bool)
    (table : list ReminderItem) :
  NoDup (map idx table) -> NoDup (map idx (filter keep table)).
Proof.
  intros Hnd. induction table as [|r rest IH]; [constructor|].
  apply NoDup_cons_iff in Hnd. destruct Hnd as [Hfresh Hrest].
  cbn [filter]. destruct (keep r); [|exact (IH Hrest)].
  cbn [map]. apply NoDup_cons; [|exact (IH Hrest)].
  rewrite in_map_iff. intros [x [Hx Hin]].
  apply filter_In in Hin. apply Hfresh.
  rewrite <- Hx. apply in_map. tauto.
Qed.

Lemma add_well_formed (now : datetime) (g a u : Z) (p : string)
    (m : option string) (od rd : datetime) (s : Session) :
  well_formed s -> well_formed (snd (add now g a u p m od rd s)).
Proof.
  intros [Hnd Hlt]. unfold add.
  destruct (rd <? now); simpl; [split; assumption|].
  split; simpl.
  - rewrite map_app. simpl.
    apply NoDup_app; [exact Hnd | repeat constructor; intros [] |].
    intros x Hx [<-|[]].
    apply in_map_iff in Hx. destruct Hx as [r [Hr Hin]].
    rewrite Forall_forall in Hlt. specialize (Hlt r Hin). lia.
  - apply Forall_app. split.
    + rewrite Forall_forall in *. intros r Hr. specialize (Hlt r Hr). lia.
    + repeat constructor. simpl. lia.
Qed.

(** X1: every operation of the store keeps the primary keys of the table
    pairwise distinct and below the autoincrement counter. *)
Theorem store_operations_keep_ids_unique (s : Session) :
  well_formed s ->
  (forall now g a u p m od rd, well_formed (snd (add now g a u p m od rd s)))
  /\ (forall self d, well_formed (Database.reschedule self d s))
  /\ (forall self, well_formed (Database.delete self s))
  /\ (forall self st, well_formed (save_status self st s)).
Proof.
  intros Hwf. split; [|split; [|split]].
  - intros. apply add_well_formed, Hwf.
  - intros self d. apply update_row_well_formed; [reflexivity | exact Hwf].
  - intros self. destruct Hwf as [Hnd Hlt]. split; simpl.
    + apply kept_keys_distinct, Hnd.
    + rewrite Forall_forall in *. intros r Hr.
      apply filter_In in Hr. apply Hlt, Hr.
  - intros self st. apply update_row_well_formed; [reflexivity | exact Hwf].
Qed.

Lemma store_operations_keep_ids_unique_witness :
  well_formed (snd (add 100 7 8 8 "url" None 0 101 (mkSession [tea] 2)))
  /\ well_formed (Database.delete tea (mkSession [tea; milk] 3)).
Proof.
  assert (H1 : well_formed (mkSession [tea] 2)).
  { split; simpl.
    - repeat constructor. intros [].
    - repeat constructor. }
  assert (H2 : well_formed (mkSession [tea; milk] 3)).
  { split; simpl.
    - repeat constructor; simpl; [intros [H|[]]; discriminate H | intros []].
    - repeat constructor. }
  split.
  - apply (proj1 (store_operations_keep_ids_unique _ H1)).
  - apply (proj1 (proj2 (proj2 (store_operations_keep_ids_unique _ H2)))).
Defined.

Lemma matchesb_by_idx (i : Z) (r : ReminderItem) :
  matchesb (by_idx i) r = (idx r =? i).
Proof. unfold matchesb, by_idx. simpl. rewrite !andb_true_r. reflexivity. Qed.

Lemma get_all_by_idx (i : Z) (table : list ReminderItem) :
  get_all_rows (by_idx i) table
  = order_by_remind_date_desc (filter (fun r => idx r =? i) table).
Proof.
  rewrite get_all_rows_eq. f_equal. apply filter_ext.
  intros r. apply matchesb_by_idx.
Qed.

(** X2: on a table with distinct keys below the counter, a record that
    [add] returns has a key no earlier record has, looking that key up
    afterwards finds exactly the new record, and any other query answers
    as before, with the new record added when it meets the criteria. *)
Theorem added_record_is_found (now : datetime) (g a u : Z) (p : string)
    (m : option string) (od rd : datetime) (s s' : Session)
    (item : ReminderItem) :
  well_formed s ->
  add now g a u p m od rd s = (Ok item, s') ->
  (forall r, In r (rows s) -> idx r <> idx item)
  /\ get_all_rows (by_idx (idx item)) (rows s') = [item]
  /\ forall f,
       Permutation (get_all_rows f (rows s'))
         (if matchesb f item then item :: get_all_rows f (rows s)
          else get_all_rows f (rows s)).
Proof.
  intros [Hnd Hlt] Hadd. unfold add in Hadd.
  destruct (rd <? now); [discriminate|].
  injection Hadd as <- <-. simpl.
  assert (Hfresh : forall r, In r (rows s) -> idx r <> next_idx s).
  { rewrite Forall_forall in Hlt. intros r Hr. specialize (Hlt r Hr). lia. }
  split; [exact Hfresh|]. split.
  - rewrite get_all_by_idx, filter_app. simpl.
    rewrite Z.eqb_refl, filter_none; [reflexivity|].
    intros r Hr. apply Z.eqb_neq, Hfresh, Hr.
  - intros f. rewrite !get_all_rows_eq.
    eapply perm_trans; [apply order_by_perm|].
    rewrite filter_app. simpl.
    destruct (matchesb f _).
    + eapply perm_trans; [apply Permutation_app_comm|]. simpl.
      apply perm_skip, Permutation_sym, order_by_perm.
    + rewrite app_nil_r. apply Permutation_sym, order_by_perm.
Qed.

Lemma added_record_is_found_witness :
  get_all_rows (by_idx 2)
    (rows (mkSession ([tea] ++ [mkItem 2 7 8 9 "url" None 100 101 WAITING]) 3))
  = [mkItem 2 7 8 9 "url" None 100 101 WAITING].
Proof.
  assert (H1 : well_formed (mkSession [tea] 2)).
  { split; simpl.
    - repeat constructor. intros [].
    - repeat constructor. }
  exact (proj1 (proj2 (added_record_is_found 100 7 8 9 "url" None 0 101
                         (mkSession [tea] 2) _ _ H1 eq_refl))).
Defined.

(** X3: what [get_all] answers after [delete] is what it answered before
    without the records carrying the deleted key, in the same order; a
    query for the deleted key answers the empty list. *)
Theorem find_after_delete (self : ReminderItem) (s : Session) (f : Filter) :
  get_all_rows f (rows (Database.delete self s))
  = filter (fun r => negb (idx r =? idx self)) (get_all_rows f (rows s))
  /\ (f_idx f = Some (idx self) ->
      get_all_rows f (rows (Database.delete self s)) = []).
Proof.
  split.
  - apply get_all_rows_delete.
  - apply get_all_rows_delete_key.
Qed.

Lemma find_after_delete_witness :
  get_all_rows (by_idx 1) (rows (Database.delete tea (mkSession [tea; milk] 3)))
  = [].
Proof.
  exact (proj2 (find_after_delete tea (mkSession [tea; milk] 3) (by_idx 1))
           eq_refl).
Defined.

Lemma filter_map_swap {A : Type} (p : A -> bool) (g : A -> A) (l : list A) :
  (forall x, p (g x) = p x) -> filter p (map g l) = map g (filter p l).
Proof.
  intros H. induction l as [|h t IH]; simpl; [reflexivity|].
  rewrite H. destruct (p h); simpl; rewrite IH; reflexivity.
Qed.

(** X4: on a table with distinct keys, after [reschedule] the lookup of the
    record's key answers that record with the new due date and every other
    field as it was, whatever the date and the status; the lookup of any
    other key answers as before. *)
Theorem find_after_reschedule (self : ReminderItem) (d : datetime)
    (s : Session) :
  well_formed s -> In self (rows s) ->
  get_all_rows (by_idx (idx self)) (rows (Database.reschedule self d s))
  = [mkItem (idx self) (guild_id self) (author_id self) (remind_id self)
            (permalink self) (message self) (origin_date self) d (status self)]
  /\ forall j, j <> idx self ->
       get_all_rows (by_idx j) (rows (Database.reschedule self d s))
       = get_all_rows (by_idx j) (rows s).
Proof.
  intros [Hnd _] Hin. unfold Database.reschedule, update_row. simpl.
  split.
  - rewrite get_all_by_idx.
    rewrite filter_map_swap
      by (intros x; destruct (idx x =? idx self) eqn:E;
          first [exact E | reflexivity]).
    rewrite (idx_filter_unique _ _ Hnd Hin). simpl.
    rewrite Z.eqb_refl. reflexivity.
  - intros j Hj. rewrite !get_all_by_idx.
    rewrite filter_map_swap
      by (intros x; destruct (idx x =? idx self); reflexivity).
    f_equal. rewrite <- (map_id (filter _ (rows s))) at 2.
    apply map_ext_in. intros r Hr. apply filter_In in Hr.
    destruct Hr as [_ Hr]. apply Z.eqb_eq in Hr.
    destruct (idx r =? idx self) eqn:E; [|reflexivity].
    apply Z.eqb_eq in E. congruence.
Qed.

Lemma find_after_reschedule_witness :
  get_all_rows (by_idx 1)
    (rows (Database.reschedule stale 5 (mkSession [milk; stale] 3)))
  = [mkItem 1 7 8 8 "https://discord.com/channels/7/70/700" (Some "tea")
            100 5 FAILED]
  /\ get_all_rows (by_idx 2)
       (rows (Database.reschedule stale 5 (mkSession [milk; stale] 3)))
     = get_all_rows (by_idx 2) (rows (mkSession [milk; stale] 3)).
Proof.
  assert (H : well_formed (mkSession [milk; stale] 3)).
  { split; simpl.
    - repeat constructor; simpl; [intros [H|[]]; discriminate H | intros []].
    - repeat constructor. }
  destruct (find_after_reschedule stale 5 (mkSession [milk; stale] 3) H
              (or_intror (or_introl eq_refl))) as [H1 H2].
  split; [exact H1|]. apply H2. discriminate.
Defined.

(** X5: [get_all] answers with a rearrangement of the rows of the table
    that pass the test of its criteria: every matching row comes back
    exactly as often as the table holds it, none is invented, and without
    criteria the whole table comes back. *)
Theorem get_all_permutes_matching_rows (f : Filter)
    (table : list ReminderItem) :
  Permutation (get_all_rows f table) (filter (matchesb f) table)
  /\ (forall r, matchesb f r = true <-> matches f r)
  /\ (List.length (get_all_rows f table) <= List.length table)%nat
  /\ Permutation (get_all_rows no_filter table) table.
Proof.
  split; [|split; [|split]].
  - rewrite get_all_rows_eq. apply order_by_perm.
  - intros r. apply matchesb_spec.
  - rewrite get_all_rows_eq.
    rewrite (Permutation_length (order_by_perm _)).
    apply filter_length_le.
  - rewrite get_all_rows_eq.
    eapply perm_trans; [apply order_by_perm|].
    rewrite (filter_ext (matchesb no_filter) (fun _ => true))
      by reflexivity.
    clear. induction table as [|h t IH]; simpl;
      [apply perm_nil | apply perm_skip, IH].
Qed.

(** X23: updates of the store compose by key. Rescheduling a record twice
    leaves the last date; deleting it twice is deleting it once; deleting a
    rescheduled record is deleting the record; and writing a status and
    rescheduling the same record give the same table in either order. *)
Theorem store_updates_compose (self : ReminderItem) (d1 d2 : datetime)
    (st : ReminderStatus) (s : Session) :
  Database.reschedule self d2 (Database.reschedule self d1 s)
  = Database.reschedule self d2 s
  /\ Database.delete self (Database.delete self s) = Database.delete self s
  /\ Database.delete self (Database.reschedule self d1 s)
     = Database.delete self s
  /\ save_status self st (Database.reschedule self d1 s)
     = Database.reschedule self d1 (save_status self st s).
Proof.
  unfold Database.reschedule, Database.delete, save_status, update_row.
  cbn [rows next_idx].
  split; [|split; [|split]]; f_equal.
  - rewrite map_map. apply map_ext. intros r.
    destruct (idx r =? idx self) eqn:E; simpl; rewrite E; reflexivity.
  - rewrite filter_filter_andb. apply filter_ext. intros r.
    destruct (idx r =? idx self); reflexivity.
  - induction (rows s) as [|r l IH]; [reflexivity|]. simpl.
    destruct (idx r =? idx self) eqn:E; simpl; rewrite E; simpl.
    + exact IH.
    + f_equal. exact IH.
  - rewrite !map_map. apply map_ext. intros r.
    destruct (idx r =? idx self) eqn:E; simpl; rewrite E; reflexivity.
Qed.

End StoreExtras.

(** * Further properties of the dispatcher *)

Module DispatchFacts.
Import Database Cog Spec DatabaseFacts CogFacts StoreExtraFacts.
Local Open Scope cog_scope.

Lemma evolves_refl (r : ReminderItem) : evolves r r.
Proof. left. reflexivity. Qed.

Lemma evolves_trans (a b c : ReminderItem) :
  evolves a b -> evolves b c -> evolves a c.
Proof.
  unfold evolves.
  intros [-> | [-> | ->]] [-> | [-> | ->]]; auto.
Qed.

Lemma evolves_idx (a b : ReminderItem) : evolves a b -> idx b = idx a.
Proof. intros [-> | [-> | ->]]; reflexivity. Qed.

Lemma evolves_remind_date (a b : ReminderItem) :
  evolves a b -> remind_date b = remind_date a.
Proof. intros [-> | [-> | ->]]; reflexivity. Qed.

Lemma evolves_terminal (a b : ReminderItem) :
  evolves a b -> status a <> WAITING -> status b <> WAITING.
Proof. intros [-> | [-> | ->]] H; simpl; [exact H | discriminate | discriminate]. Qed.

Lemma evolves_WAITING (a b : ReminderItem) :
  evolves a b -> status b = WAITING -> b = a.
Proof. intros [-> | [-> | ->]]; simpl; [reflexivity | discriminate | discriminate]. Qed.

Lemma Forall2_compose {A : Type} (R1 R2 R3 : A -> A -> Prop)
    (l1 l2 l3 : list A) :
  (forall a b c, R1 a b -> R2 b c -> R3 a c) ->
  Forall2 R1 l1 l2 -> Forall2 R2 l2 l3 -> Forall2 R3 l1 l3.
Proof.
  intros H H12. revert l3.
  induction H12 as [|a b l1 l2 Hab _ IH]; intros l3 H23.
  - inversion H23. constructor.
  - inversion H23 as [|? c ? l3' Hbc Hrest]; subst.
    constructor; [exact (H a b c Hab Hbc) | apply IH, Hrest].
Qed.

Lemma Forall2_map_self {A : Type} (R : A -> A -> Prop) (g : A -> A)
    (l : list A) :
  (forall a, R a (g a)) -> Forall2 R l (map g l).
Proof.
  intros H. induction l as [|h t IH]; simpl; constructor; [apply H | exact IH].
Qed.

Lemma Forall2_In_r {A : Type} (R : A -> A -> Prop) (l l' : list A) (b : A) :
  Forall2 R l l' -> In b l' -> exists a, In a l /\ R a b.
Proof.
  induction 1 as [|a b' l l' Hab _ IH]; simpl; [contradiction|].
  intros [<-|Hin].
  - exists a. split; [left; reflexivity | exact Hab].
  - destruct (IH Hin) as [a' [Ha' Hr]]. exists a'. split; [right|]; assumption.
Qed.

(** What one call of [_remind] can do to the session: nothing when it
    raises; when it returns, a terminal status written on the rows that
    carry the key of [item]. *)
Lemma _remind_cases (w : World) (item : ReminderItem) (st : State) :
  (exists e, fst (_remind w item st) = Raise e /\
             session (snd (_remind w item st)) = session st)
  \/ (fst (_remind w item st) = Ok tt /\
      (session (snd (_remind w item st))
       = save_status item FAILED (session st)
       \/ session (snd (_remind w item st))
          = save_status item REMINDED (session st)
       \/ session (snd (_remind w item st))
          = save_status item REMINDED (save_status item FAILED (session st)))).
Proof.
  unfold _remind, bind.
  pose proof (_get_member_state w (guild_id item) (remind_id item) st) as Hm.
  destruct (_get_member w (guild_id item) (remind_id item) st)
    as [[[user|]|e] st1]; simpl in Hm; subst st1.
  - unfold utx. destruct (utx_bound w);
      [|left; exists NameError; split; reflexivity].
    unfold ret.
    pose proof (_get_embed_state w item st) as He.
    destruct (_get_embed w item st) as [[embed|e] st2]; simpl in He; subst st2;
      [|left; exists e; split; reflexivity].
    right. destruct (user_send w user); simpl; split; auto.
  - right. simpl. split; auto.
  - left. exists e. split; reflexivity.
Qed.

Lemma save_status_stamped (item : ReminderItem) (s : ReminderStatus)
    (sess : Session) :
  s = FAILED \/ s = REMINDED ->
  Forall2 (stamped item) (rows sess) (rows (save_status item s sess)).
Proof.
  intros Hs. unfold save_status, update_row. simpl.
  apply Forall2_map_self. intros r. unfold stamped.
  destruct (idx r =? idx item) eqn:E.
  - split.
    + destruct Hs as [-> | ->]; unfold evolves; auto.
    + intros _. simpl. destruct Hs as [-> | ->]; discriminate.
  - split; [apply evolves_refl|].
    intros H. apply Z.eqb_neq in E. contradiction.
Qed.

Lemma _remind_evolves (w : World) (item : ReminderItem) (st : State) :
  Forall2 evolves (rows (session st))
          (rows (session (snd (_remind w item st))))
  /\ next_idx (session (snd (_remind w item st))) = next_idx (session st).
Proof.
  assert (Hone : forall s sess, s = FAILED \/ s = REMINDED ->
            Forall2 evolves (rows sess) (rows (save_status item s sess))).
  { intros s sess Hs.
    eapply Forall2_impl; [|apply (save_status_stamped item s sess Hs)].
    intros a b [H _]. exact H. }
  destruct (_remind_cases w item st) as [[e [_ ->]]|[_ [-> | [-> | ->]]]].
  - split; [|reflexivity].
    rewrite <- (map_id (rows (session st))) at 2.
    apply Forall2_map_self. apply evolves_refl.
  - split; [apply Hone; auto | reflexivity].
  - split; [apply Hone; auto | reflexivity].
  - split; [|reflexivity].
    eapply Forall2_compose; [apply evolves_trans | apply Hone | apply Hone];
      auto.
Qed.

Lemma _remind_Ok_stamped (w : World) (item : ReminderItem) (st st' : State) :
  _remind w item st = (Ok tt, st') ->
  Forall2 (stamped item) (rows (session st)) (rows (session st')).
Proof.
  intros H.
  destruct (_remind_cases w item st) as [[e [He _]]|[_ Hs]];
    rewrite H in *; simpl in *; [discriminate|].
  destruct Hs as [-> | [-> | ->]].
  - apply save_status_stamped; auto.
  - apply save_status_stamped; auto.
  - eapply Forall2_compose;
      [|apply (save_status_stamped item FAILED); auto
       |apply (save_status_stamped item REMINDED); auto].
    intros a b c [Hab _] [Hbc Hc]. split.
    + exact (evolves_trans _ _ _ Hab Hbc).
    + intros Hi. apply Hc. rewrite (evolves_idx _ _ Hab). exact Hi.
Qed.

Lemma for_each_step {A : Type} (x : A) (rest : list A) (body : A -> M unit)
    (st : State) :
  for_each (x :: rest) body st
  = match body x st with
    | (Ok _, st1) => for_each rest body st1
    | (Raise e, st1) => (Raise e, st1)
    end.
Proof. reflexivity. Qed.

Lemma for_each_remind_evolves (w : World) (items : list ReminderItem)
    (st : State) :
  Forall2 evolves (rows (session st))
          (rows (session (snd (for_each items (_remind w) st))))
  /\ next_idx (session (snd (for_each items (_remind w) st)))
     = next_idx (session st).
Proof.
  revert st. induction items as [|x rest IH]; intros st.
  - simpl. split; [|reflexivity].
    rewrite <- (map_id (rows (session st))) at 2.
    apply Forall2_map_self, evolves_refl.
  - rewrite for_each_step.
    destruct (_remind_evolves w x st) as [H1 H2].
    destruct (_remind w x st) as [[[]|e] st1]; simpl in H1, H2.
    + destruct (IH st1) as [H3 H4]. split.
      * eapply Forall2_compose; [apply evolves_trans | exact H1 | exact H3].
      * rewrite H4. exact H2.
    + simpl. split; assumption.
Qed.

Lemma for_each_remind_Ok (w : World) (items : list ReminderItem)
    (st st' : State) :
  for_each items (_remind w) st = (Ok tt, st') ->
  Forall2 (fun r r' =>
             evolves r r' /\
             (In (idx r) (map idx items) -> status r' <> WAITING))
          (rows (session st)) (rows (session st')).
Proof.
  revert st. induction items as [|x rest IH]; intros st H.
  - simpl in H. injection H as <-.
    rewrite <- (map_id (rows (session st))) at 2.
    apply Forall2_map_self. intros a. split; [apply evolves_refl | intros []].
  - rewrite for_each_step in H.
    destruct (_remind w x st) as [[[]|e] st1] eqn:E; [|discriminate].
    pose proof (_remind_Ok_stamped w x st st1 E) as H1.
    pose proof (IH st1 H) as H2.
    eapply Forall2_compose; [|exact H1|exact H2].
    intros a b c [Hab Hb] [Hbc Hc]. split.
    + exact (evolves_trans _ _ _ Hab Hbc).
    + simpl. intros [Hi|Hi].
      * apply (evolves_terminal _ _ Hbc). apply Hb. symmetry. exact Hi.
      * apply Hc. rewrite (evolves_idx _ _ Hab). exact Hi.
Qed.

Lemma _remind_keeps_other (w : World) (item r : ReminderItem) (st : State) :
  idx r <> idx item -> In r (rows (session st)) ->
  In r (rows (session (snd (_remind w item st)))).
Proof.
  intros Hne Hin.
  assert (Hone : forall s sess, In r (rows sess) ->
                                In r (rows (save_status item s sess))).
  { intros s sess H. unfold save_status, update_row. simpl.
    apply in_map_iff. exists r. split; [|exact H].
    apply Z.eqb_neq in Hne. rewrite Hne. reflexivity. }
  destruct (_remind_cases w item st) as [[e [_ ->]]|[_ [-> | [-> | ->]]]];
    auto.
Qed.

Lemma for_each_remind_keeps_other (w : World) (items : list ReminderItem)
    (r : ReminderItem) (st : State) :
  (forall item, In item items -> idx r <> idx item) ->
  In r (rows (session st)) ->
  In r (rows (session (snd (for_each items (_remind w) st)))).
Proof.
  revert st. induction items as [|x rest IH]; intros st Hne Hin;
    [exact Hin|].
  rewrite for_each_step.
  pose proof (_remind_keeps_other w x r st (Hne x (or_introl eq_refl)) Hin)
    as H1.
  destruct (_remind w x st) as [[[]|e] st1]; simpl in H1; [|exact H1].
  apply IH; [|exact H1].
  intros item Hitem. apply Hne. right; exact Hitem.
Qed.

Lemma idx_injective (l : list ReminderItem) (a b : ReminderItem) :
  NoDup (map idx l) -> In a l -> In b l -> idx a = idx b -> a = b.
Proof.
  induction l as [|h t IH]; simpl; intros Hnd Ha Hb E; [contradiction|].
  inversion Hnd as [|? ? Hh Ht]; subst.
  destruct Ha as [->|Ha], Hb as [->|Hb].
  - reflexivity.
  - exfalso. apply Hh. rewrite E. apply in_map, Hb.
  - exfalso. apply Hh. rewrite <- E. apply in_map, Ha.
  - apply IH; assumption.
Qed.

Lemma due_items_In (w : World) (st : State) (r : ReminderItem) :
  In r (due_items w st) <->
  In r (rows (session st)) /\ status r = WAITING /\ remind_date r < horizon w.
Proof.
  unfold due_items. rewrite get_all_rows_In.
  unfold matches, due_filter, holds, horizon. simpl. tauto.
Qed.

Lemma Forall2_In_l {A : Type} (R : A -> A -> Prop) (l l' : list A) (a : A) :
  Forall2 R l l' -> In a l -> exists b, In b l' /\ R a b.
Proof.
  induction 1 as [|a' b l l' Hab _ IH]; simpl; [contradiction|].
  intros [<-|Hin].
  - exists b. split; [left; reflexivity | exact Hab].
  - destruct (IH Hin) as [b' [Hb' Hr]]. exists b'. split; [right|]; assumption.
Qed.

Lemma evolves_keys (l l' : list ReminderItem) :
  Forall2 evolves l l' -> map idx l' = map idx l.
Proof.
  induction 1 as [|a b l l' Hab _ IH]; simpl; [reflexivity|].
  rewrite IH, (evolves_idx _ _ Hab). reflexivity.
Qed.

End DispatchFacts.

Module DispatchExtras.
Import Database Cog Spec Samples DatabaseFacts CogFacts StoreExtraFacts
       DispatchFacts.
Local Open Scope cog_scope.

(** X7: a dispatcher iteration, whether it returns or raises, neither
    adds nor removes records and leaves the autoincrement counter alone:
    the table holds the same keys, as many rows as before, every row
    afterwards is a row from before, unchanged or with its status
    overwritten by FAILED or REMINDED, and every row from before has such a
    successor. Nothing is said about the order in which the backend holds
    the rows. *)
Theorem reminder_only_stamps_statuses (w : World) (st : State) :
  (forall r', In r' (rows (session (snd (reminder w st)))) ->
              exists r, In r (rows (session st)) /\ evolves r r')
  /\ (forall r, In r (rows (session st)) ->
                exists r', In r' (rows (session (snd (reminder w st)))) /\
                           evolves r r')
  /\ Permutation (map idx (rows (session st)))
                 (map idx (rows (session (snd (reminder w st)))))
  /\ next_idx (session (snd (reminder w st))) = next_idx (session st)
  /\ List.length (rows (session (snd (reminder w st))))
     = List.length (rows (session st)).
Proof.
  assert (H : Forall2 evolves (rows (session st))
                      (rows (session (snd (reminder w st))))
              /\ next_idx (session (snd (reminder w st)))
                 = next_idx (session st)).
  { unfold reminder, bind, get_all, is_None. cbn [negb].
    apply (for_each_remind_evolves w _
             (mkState (session st) (effects st ++ [StoreQuery (due_filter w)]))). }
  destruct H as [H1 H2].
  split; [|split; [|split; [|split]]].
  - intros r' Hr'. exact (Forall2_In_r _ _ _ _ H1 Hr').
  - intros r Hr. exact (Forall2_In_l _ _ _ _ H1 Hr).
  - rewrite (evolves_keys _ _ H1). apply Permutation_refl.
  - exact H2.
  - symmetry. exact (Forall2_length H1).
Qed.

Lemma reminder_only_stamps_statuses_witness :
  exists r', In r' (rows (session (snd (reminder (deserted false)
                                          (mkState (mkSession [tea; milk] 3) [])))))
             /\ evolves tea r' /\ status r' = FAILED.
Proof.
  destruct (proj1 (proj2 (reminder_only_stamps_statuses (deserted false)
                            (mkState (mkSession [tea; milk] 3) [])))
              tea (or_introl eq_refl)) as [r' [Hin Hev]].
  exists r'. split; [exact Hin|]. split; [exact Hev|].
  destruct Hin as [<-|[<-|[]]]; [reflexivity | reflexivity].
Defined.

(** X8: on a table with distinct keys, a record that is not WAITING, or
    that is due at or after the horizon, is still in the table, unchanged,
    after a dispatcher iteration, whatever the iteration meets. *)
Theorem reminder_leaves_other_records (w : World) (st : State)
    (r : ReminderItem) :
  well_formed (session st) ->
  In r (rows (session st)) ->
  status r <> WAITING \/ horizon w <= remind_date r ->
  In r (rows (session (snd (reminder w st)))).
Proof.
  intros [Hnd _] Hin Hr.
  unfold reminder, bind, get_all, is_None. cbn [negb].
  fold (due_filter w). fold (due_items w st).
  apply for_each_remind_keeps_other; [|exact Hin].
  intros item Hitem E.
  apply due_items_In in Hitem. destruct Hitem as [Hi [Hs Hd]].
  assert (r = item) by (apply (idx_injective _ _ _ Hnd Hin Hi E)).
  subst item. destruct Hr as [Hr|Hr]; [contradiction | lia].
Qed.

Lemma reminder_leaves_other_records_witness :
  In stale (rows (session (snd (reminder (world true [])
                                   (mkState (mkSession [milk; stale] 3) []))))).
Proof.
  apply (reminder_leaves_other_records (world true [])
           (mkState (mkSession [milk; stale] 3) []) stale).
  - split; simpl.
    + repeat constructor; simpl; [intros [H|[]]; discriminate H | intros []].
    + repeat constructor.
  - right. left. reflexivity.
  - left. discriminate.
Defined.

(** X9: when a dispatcher iteration returns, no record due before its
    horizon is left WAITING, so a second iteration at the same clock
    reading finds nothing to deliver and only queries the store. *)
Theorem reminder_leaves_nothing_due (w : World) (st st' : State) :
  reminder w st = (Ok tt, st') ->
  (forall r, In r (rows (session st')) ->
             remind_date r < horizon w -> status r <> WAITING)
  /\ due_items w st' = []
  /\ reminder w st'
     = (Ok tt, mkState (session st')
                 (effects st' ++ [StoreQuery (due_filter w)])).
Proof.
  intros H.
  assert (Hall : forall r, In r (rows (session st')) ->
                           remind_date r < horizon w -> status r <> WAITING).
  { unfold reminder, bind, get_all, is_None in H. cbn [negb] in H.
    fold (due_filter w) in H. fold (due_items w st) in H.
    apply for_each_remind_Ok in H. cbn [session] in H.
    intros r' Hr' Hd Hs.
    destruct (Forall2_In_r _ _ _ _ H Hr') as [r [Hr [Hev Hst]]].
    pose proof (evolves_WAITING _ _ Hev Hs) as E. subst r'.
    apply Hst; [|exact Hs].
    apply in_map. apply due_items_In. tauto. }
  assert (Hnone : due_items w st' = []).
  { destruct (due_items w st') as [|r l] eqn:E; [reflexivity|].
    exfalso.
    assert (Hr : In r (due_items w st')) by (rewrite E; left; reflexivity).
    apply due_items_In in Hr. destruct Hr as [Hin [Hs Hd]].
    exact (Hall r Hin Hd Hs). }
  split; [exact Hall|]. split; [exact Hnone|].
  unfold reminder, bind, get_all, is_None. cbn [negb].
  fold (due_filter w). fold (due_items w st').
  rewrite Hnone. reflexivity.
Qed.

Lemma reminder_leaves_nothing_due_witness :
  due_items (deserted false)
    (snd (reminder (deserted false) (mkState (mkSession [tea; milk] 3) [])))
  = [].
Proof.
  exact (proj1 (proj2 (reminder_leaves_nothing_due (deserted false)
                         (mkState (mkSession [tea; milk] 3) []) _ eq_refl))).
Defined.

End DispatchExtras.

Module DeliveryExtras.
Import Database Cog Spec Samples DatabaseFacts CogFacts StoreExtraFacts
       DispatchFacts.
Local Open Scope cog_scope.

(** X10: when the bot knows the guild but the member is neither in its
    cache nor fetchable, [_remind] returns normally, writes FAILED on the
    record, logs one warning and sends nothing, whether or not [utx] is
    bound. *)
Theorem remind_unreachable_member_fails
    (w : World) (item : ReminderItem) (guild : Z -> option User) (st : State) :
  get_guild w (guild_id item) = Some guild ->
  guild (remind_id item) = None ->
  fetch_user w (remind_id item) = None ->
  _remind w item st
  = (Ok tt,
     mkState (save_status item FAILED (session st))
       (effects st ++
          [Log bot_log warning
             (plain "Unable to remind user - member out of bot reach.")]))
  /\ forall r, In r (rows (session (snd (_remind w item st)))) ->
               idx r = idx item -> status r = FAILED.
Proof.
  intros Hg Hc Hf.
  assert (E : _remind w item st
    = (Ok tt,
       mkState (save_status item FAILED (session st))
         (effects st ++
            [Log bot_log warning
               (plain "Unable to remind user - member out of bot reach.")]))).
  { unfold _remind, bind, _get_member. rewrite Hg, Hc, Hf. reflexivity. }
  split; [exact E|].
  rewrite E. intros r Hr Hi.
  exact (save_status_sets item r FAILED (session st) Hr Hi).
Qed.

Lemma remind_unreachable_member_fails_witness :
  _remind (deserted false) tea (state_of [tea])
  = (Ok tt,
     mkState (save_status tea FAILED (session (state_of [tea])))
       (effects (state_of [tea]) ++
          [Log bot_log warning
             (plain "Unable to remind user - member out of bot reach.")])).
Proof.
  exact (proj1 (remind_unreachable_member_fails (deserted false) tea
                  (fun _ => None) (state_of [tea]) eq_refl eq_refl eq_refl)).
Defined.

(** X11: when the member resolves, [utx] is bound and the direct message
    goes through, [_remind] sends exactly one message, to that member,
    writes REMINDED on the record, logs the success and no warning. *)
Theorem remind_delivered_ends_REMINDED
    (w : World) (item : ReminderItem) (user : User) (st : State) :
  resolves w (guild_id item) (remind_id item) user ->
  utx_bound w = true ->
  user_send w user = Sent ->
  (exists embed,
     _remind w item st
     = (Ok tt,
        mkState (save_status item REMINDED (session st))
          (effects st ++
             [UserSend user embed Sent;
              Log guild_log info
                (mkText "Reminder ID {id} succesfully sent to {user}"
                   [("id", AInt (idx item));
                    ("user", AStr (display_name user))])])))
  /\ forall r, In r (rows (session (snd (_remind w item st)))) ->
               idx r = idx item -> status r = REMINDED.
Proof.
  intros Hr Hu Hs.
  destruct (_get_embed_resolves w item user st Hr Hu) as [embed He].
  assert (E : _remind w item st
     = (Ok tt,
        mkState (save_status item REMINDED (session st))
          (effects st ++
             [UserSend user embed Sent;
              Log guild_log info
                (mkText "Reminder ID {id} succesfully sent to {user}"
                   [("id", AInt (idx item));
                    ("user", AStr (display_name user))])]))).
  { unfold _remind, bind.
    rewrite (_get_member_resolves _ _ _ _ _ Hr).
    unfold utx. rewrite Hu. unfold ret. rewrite He, Hs.
    unfold emit, commit. simpl. rewrite <- !app_assoc. reflexivity. }
  split; [exists embed; exact E|].
  rewrite E. intros r Hin Hi.
  exact (save_status_sets item r REMINDED (session st) Hin Hi).
Qed.

Lemma remind_delivered_ends_REMINDED_witness :
  exists embed,
    _remind (reachable true []) tea (state_of [tea])
    = (Ok tt,
       mkState (save_status tea REMINDED (session (state_of [tea])))
         (effects (state_of [tea]) ++
            [UserSend alice embed Sent;
             Log guild_log info
               (mkText "Reminder ID {id} succesfully sent to {user}"
                  [("id", AInt (idx tea));
                   ("user", AStr (display_name alice))])])).
Proof.
  apply (proj1 (remind_delivered_ends_REMINDED (reachable true []) tea alice
                  (state_of [tea])
                  (ex_intro _ (fun u => if u =? 8 then Some alice
                                        else if u =? 9 then Some bob else None)
                     (conj eq_refl (or_introl eq_refl)))
                  eq_refl eq_refl)).
Defined.

(** X12: the record due latest is delivered first, and an exception in
    its delivery ends the iteration. If the bot does not know that
    record's guild the iteration raises [AttributeError]; if the member
    resolves but [utx] is unbound it raises [NameError]. Either way no
    record at all has been changed and nothing but the store query has
    happened. *)
Theorem reminder_stops_at_first_exception
    (w : World) (st : State) (item : ReminderItem) (rest : list ReminderItem) :
  due_items w st = item :: rest ->
  (forall r, In r rest -> remind_date r <= remind_date item)
  /\ (get_guild w (guild_id item) = None ->
      reminder w st
      = (Raise AttributeError,
         mkState (session st) (effects st ++ [StoreQuery (due_filter w)])))
  /\ (forall user,
        resolves w (guild_id item) (remind_id item) user ->
        utx_bound w = false ->
        reminder w st
        = (Raise NameError,
           mkState (session st) (effects st ++ [StoreQuery (due_filter w)]))).
Proof.
  intros Hdue. split; [|split].
  - pose proof (order_by_sorted
                  (filter (matchesb (due_filter w)) (rows (session st)))) as Hs.
    rewrite <- get_all_rows_eq in Hs. fold (due_items w st) in Hs.
    rewrite Hdue in Hs. inversion Hs as [|? ? _ Hall]; subst.
    rewrite Forall_forall in Hall. exact Hall.
  - intros Hg. unfold reminder, bind, get_all, is_None. cbn [negb].
    fold (due_filter w). fold (due_items w st). rewrite Hdue.
    rewrite for_each_step. unfold _remind, bind, _get_member.
    rewrite Hg. reflexivity.
  - intros user Hr Hu. unfold reminder, bind, get_all, is_None. cbn [negb].
    fold (due_filter w). fold (due_items w st). rewrite Hdue.
    rewrite for_each_step. unfold _remind, bind.
    rewrite (_get_member_resolves _ _ _ _ _ Hr).
    unfold utx. rewrite Hu. reflexivity.
Qed.

Lemma reminder_stops_at_first_exception_witness :
  reminder (world false []) (mkState (mkSession [tea; milk; orphan] 4) [])
  = (Raise AttributeError,
     mkState (mkSession [tea; milk; orphan] 4)
       ([] ++ [StoreQuery (due_filter (world false []))]))
  /\ reminder (world false []) (mkState (mkSession [tea; milk] 3) [])
  = (Raise NameError,
     mkState (mkSession [tea; milk] 3)
       ([] ++ [StoreQuery (due_filter (world false []))])).
Proof.
  split.
  - apply (proj1 (proj2 (reminder_stops_at_first_exception (world false [])
                           (mkState (mkSession [tea; milk; orphan] 4) [])
                           orphan [tea; milk] eq_refl))).
    reflexivity.
  - apply (proj2 (proj2 (reminder_stops_at_first_exception (world false [])
                           (mkState (mkSession [tea; milk] 3) [])
                           tea [milk] eq_refl)) alice).
    + exists (fun u => if u =? 8 then Some alice
                       else if u =? 9 then Some bob else None).
      split; [reflexivity | left; reflexivity].
    + reflexivity.
Defined.

(** X13: a record that [add] has just stored is picked by a dispatcher
    iteration exactly when its due date lies before that iteration's
    horizon; creation itself only demands a due date not before the clock
    reading of the call. *)
Theorem created_record_is_due_before_horizon
    (w : World) (now0 : datetime) (g a u : Z) (p : string) (m : option string)
    (od rd : datetime) (s s' : Session) (item : ReminderItem)
    (eff : list Effect) :
  add now0 g a u p m od rd s = (Ok item, s') ->
  now0 <= rd
  /\ (In item (due_items w (mkState s' eff)) <-> rd < horizon w).
Proof.
  unfold add. intros H.
  destruct (rd <? now0) eqn:E; [discriminate|].
  apply Z.ltb_ge in E. injection H as <- <-.
  split; [exact E|].
  rewrite due_items_In. simpl. split.
  - tauto.
  - intros Hd. split; [|split; [reflexivity | exact Hd]].
    apply in_or_app. right. left. reflexivity.
Qed.

Lemma created_record_is_due_before_horizon_witness :
  In (mkItem 2 7 8 8 "url" None 1000 11000000 WAITING)
     (due_items (world true [])
        (mkState (mkSession ([tea] ++ [mkItem 2 7 8 8 "url" None 1000
                                             11000000 WAITING]) 3) [])).
Proof.
  apply (proj2 (created_record_is_due_before_horizon (world true []) 1000
                  7 8 8 "url" None 0 11000000 (mkSession [tea] 2) _ _ []
                  eq_refl)).
  reflexivity.
Defined.

End DeliveryExtras.

(** * Further properties of the commands *)

Module FlowFacts.
Import Database Cog Spec DatabaseFacts CogFacts StoreExtraFacts.
Local Open Scope cog_scope.

Lemma wait_for_raises_timeout (check : Reaction -> User -> bool) (timeout : Z)
    (events : list ReactionAdd) (e : exn) :
  wait_for check timeout events = Raise e -> e = TimeoutError.
Proof.
  induction events as [|ev later IH]; simpl.
  - intros H. injection H as <-. reflexivity.
  - destruct (timeout <=? elapsed ev).
    + intros H. injection H as <-. reflexivity.
    + destruct (check (ev_reaction ev) (ev_user ev)); [discriminate | exact IH].
Qed.

Lemma delete_decision_cases (query : ReminderItem) (mid : Z)
    (events : list ReactionAdd) (st : State) :
  session (snd (delete_decision query mid events st)) = session st
  \/ exists r u,
       wait_for (check_id mid query) 60 events = Ok (r, u) /\
       emoji r = confirm_emoji /\
       session (snd (delete_decision query mid events st))
       = Database.delete query (session st).
Proof.
  unfold delete_decision.
  destruct (wait_for (check_id mid query) 60 events) as [[r u]|e] eqn:E.
  - destruct (String.eqb_spec (emoji r) confirm_emoji) as [Hc|Hc].
    + right. exists r, u. repeat split. exact Hc.
    + left. destruct (String.eqb (emoji r) cancel_emoji); reflexivity.
  - left. destruct e; reflexivity.
Qed.

Lemma delete_flow_cases (w : World) (ctx : Context) (i : Z) (st : State) :
  session (snd (delete w ctx i st)) = session st
  \/ exists query r u,
       hd_error (get_all_rows (lookup_filter ctx i) (rows (session st)))
       = Some query /\
       remind_id query = user_id (ctx_author ctx) /\
       wait_for (check_id (proposal_message_id w) query) 60 (reaction_adds w)
       = Ok (r, u) /\
       emoji r = confirm_emoji /\
       session (snd (delete w ctx i st)) = Database.delete query (session st).
Proof.
  unfold delete, bind, get_all, is_None.
  fold (lookup_filter ctx i).
  destruct (get_all_rows (lookup_filter ctx i) (rows (session st)))
    as [|query rest]; [left; reflexivity|].
  cbn [getitem0 ret hd_error].
  destruct (remind_id query =? user_id (ctx_author ctx)) eqn:Eo;
    [|left; reflexivity].
  apply Z.eqb_eq in Eo. cbn [negb].
  match goal with
  | |- context [_get_embed w query ?s1] =>
      pose proof (_get_embed_state w query s1) as Hs;
      destruct (_get_embed w query s1) as [[embed|e] st2]
  end; simpl in Hs; subst st2; [|left; reflexivity].
  unfold propose, bind, emit, ret. cbn [fst snd session effects].
  match goal with
  | |- context [delete_decision query ?m ?evs ?s3] =>
      destruct (delete_decision_cases query m evs s3)
        as [Hd|[r [u [Hw [He Hd]]]]];
      destruct (delete_decision query m evs s3) as [[[]|e] st4]
  end; simpl in Hd; cbn [fst snd session effects].
  - left. exact Hd.
  - left. exact Hd.
  - right. exists query, r, u. repeat split; assumption.
  - right. exists query, r, u. repeat split; assumption.
Qed.

Lemma delete_flow_confirmed
    (w : World) (ctx : Context) (i : Z) (st : State)
    (query : ReminderItem) (user : User) (r : Reaction) (u : User) :
  hd_error (get_all_rows (lookup_filter ctx i) (rows (session st)))
  = Some query ->
  remind_id query = user_id (ctx_author ctx) ->
  resolves w (guild_id query) (remind_id query) user ->
  utx_bound w = true ->
  wait_for (check_id (proposal_message_id w) query) 60 (reaction_adds w)
  = Ok (r, u) ->
  emoji r = confirm_emoji ->
  fst (delete w ctx i st) = Ok tt /\
  session (snd (delete w ctx i st)) = Database.delete query (session st).
Proof.
  intros Hq Ho Hr Hu Hw He.
  unfold delete, bind, get_all, is_None.
  fold (lookup_filter ctx i).
  destruct (get_all_rows (lookup_filter ctx i) (rows (session st)))
    as [|q rest]; [discriminate Hq|].
  injection Hq as ->.
  cbn [getitem0 ret].
  apply Z.eqb_eq in Ho. rewrite Ho. cbn [negb].
  match goal with
  | |- context [_get_embed w query ?s1] =>
      destruct (_get_embed_resolves w query user s1 Hr Hu) as [embed Hg];
      rewrite Hg
  end.
  unfold propose, bind, emit, ret, delete_decision.
  rewrite Hw, He. split; reflexivity.
Qed.

Lemma lookup_head_key (ctx : Context) (i : Z) (table : list ReminderItem)
    (query : ReminderItem) :
  hd_error (get_all_rows (lookup_filter ctx i) table) = Some query ->
  In query table /\ guild_id query = ctx_guild_id ctx /\ idx query = i.
Proof.
  intros H.
  assert (Hin : In query (get_all_rows (lookup_filter ctx i) table)).
  { destruct (get_all_rows (lookup_filter ctx i) table) as [|q l];
      [discriminate|]. injection H as ->. left. reflexivity. }
  apply get_all_rows_In in Hin. destruct Hin as [Hin Hm].
  unfold matches, lookup_filter, holds in Hm. simpl in Hm. tauto.
Qed.

(** Effects of the listing helpers. *)
Lemma for_each_emit {A : Type} (g : A -> Effect) (l : list A) (st : State) :
  for_each l (fun x => emit (g x)) st
  = (Ok tt, mkState (session st) (effects st ++ map g l)).
Proof.
  revert st. induction l as [|h t IH]; intros st; simpl.
  - rewrite app_nil_r. destruct st. reflexivity.
  - unfold bind, emit at 1. rewrite IH. simpl.
    rewrite <- app_assoc. reflexivity.
Qed.

Lemma reminder_dummies_state (w : World) (query : list ReminderItem)
    (st : State) :
  snd (reminder_dummies w query st) = st.
Proof.
  induction query as [|item rest IH]; simpl; [reflexivity|].
  unfold bind, reminder_dummy, bind.
  pose proof (_get_member_state w (guild_id item) (author_id item) st) as H1.
  destruct (_get_member w (guild_id item) (author_id item) st)
    as [[a|e] st1]; simpl in H1; subst st1; [|reflexivity].
  pose proof (_get_member_state w (guild_id item) (remind_id item) st) as H2.
  destruct (_get_member w (guild_id item) (remind_id item) st)
    as [[b|e] st1]; simpl in H2; subst st1; [|reflexivity].
  unfold ret. simpl.
  destruct (reminder_dummies w rest st) as [[l|e] st1]; simpl in IH; subst st1;
    reflexivity.
Qed.

Lemma _get_member_known (w : World) (g u : Z) (guild : Z -> option User)
    (st : State) :
  get_guild w g = Some guild ->
  _get_member w g u st
  = (Ok (match guild u with Some user => Some user | None => fetch_user w u end),
     st).
Proof.
  intros Hg. unfold _get_member. rewrite Hg.
  destruct (guild u); reflexivity.
Qed.

Lemma reminder_dummies_known (w : World) (g : Z) (guild : Z -> option User)
    (query : list ReminderItem) (st : State) :
  get_guild w g = Some guild ->
  Forall (fun item => guild_id item = g) query ->
  reminder_dummies w query st = (Ok (map (listed w guild) query), st).
Proof.
  intros Hg Hall. induction Hall as [|item rest Hi _ IH]; [reflexivity|].
  simpl. unfold bind, reminder_dummy, bind.
  rewrite Hi, !(_get_member_known w g _ guild st Hg). unfold ret.
  rewrite IH. unfold listed, member_name.
  destruct (guild (author_id item)), (guild (remind_id item));
    try destruct (fetch_user w (author_id item));
    try destruct (fetch_user w (remind_id item)); reflexivity.
Qed.

(** A listing of the records of a guild the bot knows. *)
Lemma listing_runs (w : World) (ctx : Context) (guild : Z -> option User)
    (f : Filter) (st : State) :
  get_guild w (ctx_guild_id ctx) = Some guild ->
  f_guild_id f = Some (ctx_guild_id ctx) ->
  (query <- get_all f ;; _send_reminder_list w ctx query) st
  = (Ok tt,
     mkState (session st)
       (effects st ++
          StoreQuery f
          :: map CtxSendPage
               (create_table w
                  (map (listed w guild)
                     (get_all_rows f (rows (session st))))))).
Proof.
  intros Hg Hf. unfold bind at 1. unfold get_all.
  unfold _send_reminder_list, bind.
  rewrite (reminder_dummies_known w (ctx_guild_id ctx) guild).
  - rewrite for_each_emit. simpl. rewrite <- app_assoc. reflexivity.
  - exact Hg.
  - rewrite Forall_forall. intros r Hr.
    apply get_all_rows_In in Hr. destruct Hr as [_ [Hm _]].
    rewrite Hf in Hm. exact Hm.
Qed.

End FlowFacts.

Module FlowExtras.
Import Database Cog Spec Samples DatabaseFacts CogFacts StoreExtraFacts
       FlowFacts.
Local Open Scope cog_scope.

(** X14: the delete command changes the session only when the requester
    is the record's target and that target confirms on the proposal in
    time, and the change is then the removal of the record; when in
    addition the target resolves and [utx] is bound the command returns and
    a new lookup of the same id answers the empty list. *)
Theorem delete_needs_target_confirmation
    (w : World) (ctx : Context) (i : Z) (st : State) :
  (session (snd (delete w ctx i st)) <> session st ->
   exists query r u,
     hd_error (get_all_rows (lookup_filter ctx i) (rows (session st)))
     = Some query /\
     remind_id query = user_id (ctx_author ctx) /\
     wait_for (check_id (proposal_message_id w) query) 60 (reaction_adds w)
     = Ok (r, u) /\
     emoji r = confirm_emoji /\
     session (snd (delete w ctx i st)) = Database.delete query (session st))
  /\ (forall query user r u,
        hd_error (get_all_rows (lookup_filter ctx i) (rows (session st)))
        = Some query ->
        remind_id query = user_id (ctx_author ctx) ->
        resolves w (guild_id query) (remind_id query) user ->
        utx_bound w = true ->
        wait_for (check_id (proposal_message_id w) query) 60 (reaction_adds w)
        = Ok (r, u) ->
        emoji r = confirm_emoji ->
        fst (delete w ctx i st) = Ok tt /\
        session (snd (delete w ctx i st)) = Database.delete query (session st) /\
        get_all_rows (lookup_filter ctx i)
          (rows (session (snd (delete w ctx i st)))) = []).
Proof.
  split.
  - intros Hne. destruct (delete_flow_cases w ctx i st) as [H|H];
      [contradiction | exact H].
  - intros query user r u Hq Ho Hr Hu Hw He.
    destruct (delete_flow_confirmed w ctx i st query user r u Hq Ho Hr Hu Hw He)
      as [H1 H2].
    split; [exact H1|]. split; [exact H2|].
    rewrite H2. apply get_all_rows_delete_key.
    destruct (lookup_head_key _ _ _ _ Hq) as [_ [_ Hi]].
    simpl. rewrite Hi. reflexivity.
Qed.

Lemma delete_needs_target_confirmation_witness :
  get_all_rows (lookup_filter ctx_alice 1)
    (rows (session (snd (delete (world true [cancel_by bob 500 1;
                                              confirm_by alice 500 3])
                           ctx_alice 1 (state_of [tea]))))) = [].
Proof.
  pose proof (proj2 (delete_needs_target_confirmation
                       (world true [cancel_by bob 500 1; confirm_by alice 500 3])
                       ctx_alice 1 (state_of [tea]))
                tea alice (mkReaction 500 confirm_emoji) alice
                eq_refl eq_refl) as H.
  apply H.
  - exists (fun u => if u =? 8 then Some alice
                     else if u =? 9 then Some bob else None).
    split; [reflexivity | left; reflexivity].
  - reflexivity.
  - reflexivity.
  - reflexivity.
Defined.

(** X15: when the record exists but its target is somebody else than the
    requester, both commands answer with their refusal and do nothing
    else: no proposal, no wait, no change of the session. This holds for
    the author of a reminder made for another user too. *)
Theorem flows_refuse_other_users
    (w : World) (ctx : Context) (i : Z) (datetime_str : string) (st : State)
    (query : ReminderItem) :
  hd_error (get_all_rows (lookup_filter ctx i) (rows (session st)))
  = Some query ->
  remind_id query <> user_id (ctx_author ctx) ->
  reschedule w ctx i datetime_str st
  = (Ok tt,
     mkState (session st)
       (effects st ++
          [StoreQuery (lookup_filter ctx i);
           CtxSend (plain "Can't reschedule other's reminders.")]))
  /\ delete w ctx i st
  = (Ok tt,
     mkState (session st)
       (effects st ++
          [StoreQuery (lookup_filter ctx i);
           CtxSend (plain "Can't delete other's reminders.")])).
Proof.
  intros Hq Hne.
  unfold reschedule, delete, bind, get_all, is_None.
  fold (lookup_filter ctx i).
  destruct (get_all_rows (lookup_filter ctx i) (rows (session st)))
    as [|q rest]; [discriminate Hq|].
  injection Hq as ->. cbn [getitem0 ret].
  apply Z.eqb_neq in Hne. rewrite Hne. cbn [negb].
  unfold emit. simpl. rewrite <- !app_assoc. split; reflexivity.
Qed.

Lemma flows_refuse_other_users_witness :
  delete (world true [confirm_by alice 500 3]) ctx_alice 2 (state_of [tea; milk])
  = (Ok tt,
     mkState (session (state_of [tea; milk]))
       (effects (state_of [tea; milk]) ++
          [StoreQuery (lookup_filter ctx_alice 2);
           CtxSend (plain "Can't delete other's reminders.")])).
Proof.
  assert (Hne : remind_id milk <> user_id (ctx_author ctx_alice))
    by discriminate.
  exact (proj2 (flows_refuse_other_users (world true [confirm_by alice 500 3])
                  ctx_alice 2 "tomorrow" (state_of [tea; milk]) milk eq_refl
                  Hne)).
Defined.

(** X16: for a record whose target is the requester, a date the parser
    rejects is answered by the parse-failure reply, and a date strictly
    before the clock reading by the "must be in future" message; in both
    cases the command returns with no proposal and the session unchanged. *)
Theorem reschedule_rejects_bad_dates
    (w : World) (ctx : Context) (i : Z) (datetime_str : string) (st : State)
    (query : ReminderItem) :
  hd_error (get_all_rows (lookup_filter ctx i) (rows (session st)))
  = Some query ->
  remind_id query = user_id (ctx_author ctx) ->
  (parse_datetime w datetime_str = None ->
   reschedule w ctx i datetime_str st
   = (Ok tt,
      mkState (session st)
        (effects st ++
           [StoreQuery (lookup_filter ctx i);
            CtxReply (parse_failure datetime_str)])))
  /\ (forall date,
        parse_datetime w datetime_str = Some date -> date < now w ->
        reschedule w ctx i datetime_str st
        = (Ok tt,
           mkState (session st)
             (effects st ++
                [StoreQuery (lookup_filter ctx i);
                 CtxSend (plain "Reschedule time must be in furuter.")]))).
Proof.
  intros Hq Ho.
  unfold reschedule, bind, get_all, is_None.
  fold (lookup_filter ctx i).
  destruct (get_all_rows (lookup_filter ctx i) (rows (session st)))
    as [|q rest]; [discriminate Hq|].
  injection Hq as ->. cbn [getitem0 ret].
  apply Z.eqb_eq in Ho. rewrite Ho. cbn [negb].
  split.
  - intros Hp. rewrite Hp. unfold emit. simpl.
    rewrite <- !app_assoc. reflexivity.
  - intros date Hp Hd. rewrite Hp. apply Z.ltb_lt in Hd. rewrite Hd.
    unfold emit. simpl. rewrite <- !app_assoc. reflexivity.
Qed.

Lemma reschedule_rejects_bad_dates_witness :
  reschedule (world true []) ctx_alice 1 "soonish" (state_of [tea])
  = (Ok tt,
     mkState (session (state_of [tea]))
       (effects (state_of [tea]) ++
          [StoreQuery (lookup_filter ctx_alice 1);
           CtxReply (parse_failure "soonish")]))
  /\ reschedule (world true []) ctx_alice 1 "epoch" (state_of [tea])
  = (Ok tt,
     mkState (session (state_of [tea]))
       (effects (state_of [tea]) ++
          [StoreQuery (lookup_filter ctx_alice 1);
           CtxSend (plain "Reschedule time must be in furuter.")])).
Proof.
  split.
  - exact (proj1 (reschedule_rejects_bad_dates (world true []) ctx_alice 1
                    "soonish" (state_of [tea]) tea eq_refl eq_refl) eq_refl).
  - exact (proj2 (reschedule_rejects_bad_dates (world true []) ctx_alice 1
                    "epoch" (state_of [tea]) tea eq_refl eq_refl)
             0 eq_refl eq_refl).
Defined.

(** X18: the listing commands never change the session, whatever status
    they are given and whatever the directory answers, also when they
    raise. *)
Theorem listing_never_changes_session
    (w : World) (ctx : Context) (status : option string) (st : State) :
  session (snd (reminders_get w ctx status st)) = session st
  /\ session (snd (reminders_all w ctx status st)) = session st.
Proof.
  assert (Hlist : forall query st0,
            session (snd (_send_reminder_list w ctx query st0)) = session st0).
  { intros query st0. unfold _send_reminder_list, bind.
    pose proof (reminder_dummies_state w query st0) as H.
    destruct (reminder_dummies w query st0) as [[l|e] st1]; simpl in H;
      subst st1; [|reflexivity].
    rewrite for_each_emit. reflexivity. }
  unfold reminders_get, reminders_all.
  destruct (ReminderStatus_getitem
              (upper w match status with Some s => s | None => "WAITING" end))
    as [s|e].
  - unfold bind, get_all. split; rewrite Hlist; reflexivity.
  - destruct (is_KeyError e); split; reflexivity.
Qed.

(** X19: when the bot knows the caller's guild and the status name is
    valid, [reminders_get] returns normally and sends, after one store
    query, the pages of the table built from one line per record of the
    caller in that guild with that status, in the order of [get_all]
    (latest due first); a member that cannot be found is shown as
    "(unknown)". [reminders_all] does the same for all records of the
    guild with that status. *)
Theorem listing_shows_matching_records
    (w : World) (ctx : Context) (s : string) (status : ReminderStatus)
    (guild : Z -> option User) (st : State) :
  get_guild w (ctx_guild_id ctx) = Some guild ->
  ReminderStatus_getitem (upper w s) = Ok status ->
  reminders_get w ctx (Some s) st
  = (Ok tt,
     mkState (session st)
       (effects st ++
          StoreQuery (mkFilter (Some (ctx_guild_id ctx)) None
                        (Some (user_id (ctx_author ctx))) (Some status)
                        None None None None)
          :: map CtxSendPage
               (create_table w
                  (map (listed w guild)
                     (get_all_rows
                        (mkFilter (Some (ctx_guild_id ctx)) None
                           (Some (user_id (ctx_author ctx))) (Some status)
                           None None None None)
                        (rows (session st)))))))
  /\ reminders_all w ctx (Some s) st
  = (Ok tt,
     mkState (session st)
       (effects st ++
          StoreQuery (mkFilter (Some (ctx_guild_id ctx)) None None
                        (Some status) None None None None)
          :: map CtxSendPage
               (create_table w
                  (map (listed w guild)
                     (get_all_rows
                        (mkFilter (Some (ctx_guild_id ctx)) None None
                           (Some status) None None None None)
                        (rows (session st))))))).
Proof.
  intros Hg Hs.
  assert (Hlist : forall f st0,
            f_guild_id f = Some (ctx_guild_id ctx) ->
            (query <- get_all f ;; _send_reminder_list w ctx query) st0
            = (Ok tt,
               mkState (session st0)
                 (effects st0 ++
                    StoreQuery f
                    :: map CtxSendPage
                         (create_table w
                            (map (listed w guild)
                               (get_all_rows f (rows (session st0)))))))).
  { intros f st0 Hf. unfold bind at 1. unfold get_all.
    unfold _send_reminder_list, bind.
    rewrite (reminder_dummies_known w (ctx_guild_id ctx) guild).
    - rewrite for_each_emit. simpl. rewrite <- app_assoc. reflexivity.
    - exact Hg.
    - rewrite Forall_forall. intros r Hr.
      apply get_all_rows_In in Hr. destruct Hr as [_ [Hm _]].
      rewrite Hf in Hm. exact Hm. }
  unfold reminders_get, reminders_all. rewrite Hs.
  split; apply Hlist; reflexivity.
Qed.

Lemma listing_shows_matching_records_witness :
  reminders_all (deserted false) ctx_alice (Some "waiting")
    (state_of [milk; stale; tea])
  = (Ok tt,
     mkState (mkSession [milk; stale; tea] 2)
       [StoreQuery (mkFilter (Some 7) None None (Some WAITING)
                      None None None None);
        CtxSendPage "7/70/700"; CtxSendPage "7/70/701"]).
Proof.
  exact (proj2 (listing_shows_matching_records (deserted false) ctx_alice
                  "waiting" WAITING (fun _ => None)
                  (state_of [milk; stale; tea]) eq_refl eq_refl)).
Defined.

(** X24: while the name [utx] is unbound, as in the module as written,
    neither command ever changes the session, and for a record that
    exists, belongs to the requester and has a resolvable target (and, for
    [reschedule], an acceptable date) the command raises [NameError] when it
    renders the proposal: nothing is presented and the only effect is the
    store query. *)
Theorem commands_need_utx
    (w : World) (ctx : Context) (i : Z) (datetime_str : string) (st : State) :
  utx_bound w = false ->
  (session (snd (reschedule w ctx i datetime_str st)) = session st /\
   session (snd (delete w ctx i st)) = session st)
  /\ (forall query user,
        hd_error (get_all_rows (lookup_filter ctx i) (rows (session st)))
        = Some query ->
        remind_id query = user_id (ctx_author ctx) ->
        resolves w (guild_id query) (remind_id query) user ->
        delete w ctx i st
        = (Raise NameError,
           mkState (session st)
             (effects st ++ [StoreQuery (lookup_filter ctx i)]))
        /\ (forall date,
              parse_datetime w datetime_str = Some date -> now w <= date ->
              reschedule w ctx i datetime_str st
              = (Raise NameError,
                 mkState (session st)
                   (effects st ++ [StoreQuery (lookup_filter ctx i)])))).
Proof.
  intros Hu. split.
  - assert (Hembed : forall query st0,
              exists e, _get_embed w query st0 = (Raise e, st0))
      by (intros; apply _get_embed_unbound, Hu).
    unfold reschedule, delete, bind, get_all, is_None.
    fold (lookup_filter ctx i).
    destruct (get_all_rows (lookup_filter ctx i) (rows (session st)))
      as [|query rest]; [split; reflexivity|].
    cbn [getitem0 ret].
    destruct (remind_id query =? user_id (ctx_author ctx));
      [|split; reflexivity].
    cbn [negb].
    match goal with
    | |- context [_get_embed w query ?s1] =>
        destruct (Hembed query s1) as [e He]
    end.
    split; [|rewrite He; reflexivity].
    destruct (parse_datetime w datetime_str) as [date|]; [|reflexivity].
    destruct (date <? now w); [reflexivity|].
    rewrite He. reflexivity.
  - intros query user Hq Ho Hr.
    assert (Hembed : forall st0, _get_embed w query st0 = (Raise NameError, st0)).
    { intros st0. unfold _get_embed, bind.
      rewrite (_get_member_resolves _ _ _ _ _ Hr).
      unfold utx. rewrite Hu. reflexivity. }
    unfold reschedule, delete, bind, get_all, is_None.
    fold (lookup_filter ctx i).
    destruct (get_all_rows (lookup_filter ctx i) (rows (session st)))
      as [|q rest]; [discriminate Hq|].
    injection Hq as ->. cbn [getitem0 ret].
    apply Z.eqb_eq in Ho. rewrite Ho. cbn [negb].
    split.
    + rewrite Hembed. reflexivity.
    + intros date Hp Hd. rewrite Hp. apply Z.ltb_ge in Hd. rewrite Hd.
      rewrite Hembed. reflexivity.
Qed.

Lemma commands_need_utx_witness :
  delete (world false [confirm_by alice 500 3]) ctx_alice 1 (state_of [tea])
  = (Raise NameError,
     mkState (session (state_of [tea]))
       (effects (state_of [tea]) ++ [StoreQuery (lookup_filter ctx_alice 1)])).
Proof.
  apply (proj2 (commands_need_utx (world false [confirm_by alice 500 3])
                  ctx_alice 1 "tomorrow" (state_of [tea]) eq_refl)
           tea alice eq_refl eq_refl).
  exists (fun u => if u =? 8 then Some alice
                   else if u =? 9 then Some bob else None).
  split; [reflexivity | left; reflexivity].
Defined.

(** X6: the status a listing line shows for a record is a name the
    listing accepts. Let the bot know the guild, let the record be one of
    the caller's records in that guild, and let [str.upper] leave the
    printed name of its status unchanged. Then [reminders_get], given the
    status printed on the record's line, returns normally, queries the
    caller's records of that very status, and sends a table that contains
    the record's line and only lines showing the same status. *)
Theorem listed_status_lists_the_record_again
    (w : World) (ctx : Context) (guild : Z -> option User)
    (item : ReminderItem) (st : State) :
  upper w (name (status item)) = name (status item) ->
  get_guild w (ctx_guild_id ctx) = Some guild ->
  In item (rows (session st)) ->
  guild_id item = ctx_guild_id ctx ->
  remind_id item = user_id (ctx_author ctx) ->
  reminders_get w ctx (Some (d_status (listed w guild item))) st
  = (Ok tt,
     mkState (session st)
       (effects st ++
          StoreQuery (mkFilter (Some (ctx_guild_id ctx)) None
                        (Some (user_id (ctx_author ctx))) (Some (status item))
                        None None None None)
          :: map CtxSendPage
               (create_table w
                  (map (listed w guild)
                     (get_all_rows
                        (mkFilter (Some (ctx_guild_id ctx)) None
                           (Some (user_id (ctx_author ctx)))
                           (Some (status item)) None None None None)
                        (rows (session st)))))))
  /\ In (listed w guild item)
        (map (listed w guild)
           (get_all_rows
              (mkFilter (Some (ctx_guild_id ctx)) None
                 (Some (user_id (ctx_author ctx))) (Some (status item))
                 None None None None)
              (rows (session st))))
  /\ (forall line,
        In line
           (map (listed w guild)
              (get_all_rows
                 (mkFilter (Some (ctx_guild_id ctx)) None
                    (Some (user_id (ctx_author ctx))) (Some (status item))
                    None None None None)
                 (rows (session st)))) ->
        d_status line = d_status (listed w guild item)).
Proof.
  intros Hup Hg Hin Hgid Hrid. split; [|split].
  - change (d_status (listed w guild item)) with (name (status item)).
    unfold reminders_get. rewrite Hup, getitem_name.
    apply listing_runs; [exact Hg | reflexivity].
  - apply in_map. apply get_all_rows_In. split; [exact Hin|].
    unfold matches, holds. simpl. tauto.
  - intros line Hl. apply in_map_iff in Hl. destruct Hl as [r [<- Hr]].
    apply get_all_rows_In in Hr. destruct Hr as [_ Hm].
    destruct Hm as [_ [_ [_ [Hs _]]]]. simpl in Hs.
    unfold listed. simpl. rewrite Hs. reflexivity.
Qed.

Lemma listed_status_lists_the_record_again_witness :
  In (listed (deserted false) (fun _ => None) stale)
     (map (listed (deserted false) (fun _ => None))
        (get_all_rows
           (mkFilter (Some 7) None (Some 8) (Some FAILED)
              None None None None)
           (rows (session (state_of [milk; stale; tea]))))).
Proof.
  exact (proj1 (proj2 (listed_status_lists_the_record_again (deserted false)
                         ctx_alice (fun _ => None) stale
                         (state_of [milk; stale; tea])
                         eq_refl eq_refl
                         (or_intror (or_introl eq_refl)) eq_refl eq_refl))).
Defined.

End FlowExtras.

(** * Properties of the text of a reminder *)

Module TextFacts.
Import Cog Spec.

Lemma startswith_app (sep b : pystr) : startswith sep (sep ++ b) = true.
Proof.
  induction sep as [|x sep IH]; simpl; [reflexivity|].
  rewrite Z.eqb_refl. exact IH.
Qed.

Lemma startswith_spec (sep s : pystr) :
  startswith sep s = true <-> exists b, s = sep ++ b.
Proof.
  split.
  - revert s. induction sep as [|x sep IH]; intros s H.
    + exists s. reflexivity.
    + destruct s as [|y s]; simpl in H; [discriminate|].
      apply andb_true_iff in H. destruct H as [Hxy H].
      apply Z.eqb_eq in Hxy. subst y.
      destruct (IH s H) as [b ->]. exists b. reflexivity.
  - intros [b ->]. apply startswith_app.
Qed.

Lemma split_from_skip (sep p b : pystr) :
  split_from sep (List.length p) (p ++ b) = split_from sep O b.
Proof.
  induction p as [|a p IH]; simpl; [reflexivity | exact IH].
Qed.

Lemma split_from_match (sep b : pystr) :
  sep <> [] -> split_from sep O (sep ++ b) = [] :: split_from sep O b.
Proof.
  intros Hne. destruct sep as [|x sep']; [contradiction|].
  change ((x :: sep') ++ b) with (x :: (sep' ++ b)).
  cbn [split_from].
  change (x :: (sep' ++ b)) with ((x :: sep') ++ b).
  rewrite startswith_app. cbn [List.length].
  rewrite Nat.sub_succ, Nat.sub_0_r, split_from_skip. reflexivity.
Qed.

Lemma split_from_miss (sep : pystr) (c : Z) (rest : pystr) :
  startswith sep (c :: rest) = false ->
  split_from sep O (c :: rest)
  = match split_from sep O rest with
    | piece :: pieces => (c :: piece) :: pieces
    | [] => [[c]]
    end.
Proof. intros H. cbn [split_from]. rewrite H. reflexivity. Qed.

Lemma split_from_nonnil (sep : pystr) (k : nat) (s : pystr) :
  split_from sep k s <> [].
Proof.
  revert k. induction s as [|c rest IH]; intros k; simpl; [discriminate|].
  destruct k; [|apply IH].
  destruct (startswith sep (c :: rest)); [discriminate|].
  destruct (split_from sep O rest); discriminate.
Qed.

Lemma occurs_cons (sep : pystr) (c : Z) (s : pystr) :
  occurs sep s -> occurs sep (c :: s).
Proof. intros [a [b ->]]. exists (c :: a), b. reflexivity. Qed.

Lemma occurs_tail (sep : pystr) (c : Z) (s : pystr) :
  occurs sep (c :: s) -> startswith sep (c :: s) = false -> occurs sep s.
Proof.
  intros [a [b H]] Hs. destruct a as [|x a].
  - simpl in H. rewrite H, startswith_app in Hs. discriminate.
  - simpl in H. injection H as _ ->. exists a, b. reflexivity.
Qed.

(** The unprocessed split has a second piece exactly when the separator
    occurs. *)
Lemma split_from_second (sep s : pystr) :
  sep <> [] ->
  (occurs sep s -> exists p q rest, split_from sep O s = p :: q :: rest)
  /\ (~ occurs sep s -> split_from sep O s = [s]).
Proof.
  intros Hne. induction s as [|c rest [IH1 IH2]].
  - split.
    + intros [a [b H]]. destruct a; destruct sep; try discriminate.
      contradiction.
    + reflexivity.
  - destruct (startswith sep (c :: rest)) eqn:E.
    + apply startswith_spec in E. destruct E as [b E]. rewrite E.
      rewrite (split_from_match _ _ Hne). split.
      * intros _. destruct (split_from sep O b) as [|q l] eqn:Eb.
        -- exfalso. exact (split_from_nonnil _ _ _ Eb).
        -- exists [], q, l. reflexivity.
      * intros H. exfalso. apply H. exists [], b. reflexivity.
    + rewrite (split_from_miss _ _ _ E). split.
      * intros H. destruct (IH1 (occurs_tail _ _ _ H E)) as [p [q [l ->]]].
        exists (c :: p), q, l. reflexivity.
      * intros H. rewrite IH2; [reflexivity|].
        intros Ho. apply H, occurs_cons, Ho.
Qed.

Lemma split_from_first (sep before rest : pystr) :
  sep <> [] -> first_at sep before rest ->
  split_from sep O (before ++ sep ++ rest) = before :: split_from sep O rest.
Proof.
  intros Hne. induction before as [|c before IH]; intros Hf.
  - change ([] ++ sep ++ rest) with (sep ++ rest).
    apply split_from_match, Hne.
  - change ((c :: before) ++ sep ++ rest) with (c :: (before ++ sep ++ rest)).
    rewrite split_from_miss.
    + rewrite IH; [reflexivity|].
      intros a b H.
      specialize (Hf (c :: a) b). simpl in Hf.
      rewrite H in Hf. specialize (Hf eq_refl). lia.
    + destruct (startswith sep (c :: before ++ sep ++ rest)) eqn:E;
        [|reflexivity].
      apply startswith_spec in E. destruct E as [b E].
      specialize (Hf [] b). simpl in Hf. specialize (Hf E). lia.
Qed.

Lemma re_split_space_cons (c : Z) (rest : pystr) :
  re_split_space (c :: rest)
  = if space =? c then [] :: re_split_space rest
    else match re_split_space rest with
         | piece :: pieces => (c :: piece) :: pieces
         | [] => [[c]]
         end.
Proof.
  unfold re_split_space. cbn [split_from startswith List.length].
  rewrite andb_true_r. reflexivity.
Qed.

Lemma re_split_space_pieces (s : pystr) :
  Forall (fun p => ~ In space p) (re_split_space s).
Proof.
  induction s as [|c rest IH].
  - repeat constructor. intros [].
  - rewrite re_split_space_cons. destruct (space =? c) eqn:E.
    + constructor; [intros [] | exact IH].
    + apply Z.eqb_neq in E.
      destruct (re_split_space rest) as [|p ps].
      * repeat constructor. intros [H|[]]. congruence.
      * inversion IH as [|? ? Hp Hps]; subst.
        constructor; [|exact Hps].
        intros [H|H]; [congruence | exact (Hp H)].
Qed.

Lemma remove_empty_words (ps : list pystr) :
  Forall (fun p => ~ In space p) ps -> Forall word (remove_empty ps).
Proof.
  intros H. unfold remove_empty. rewrite Forall_forall in *.
  intros p Hp. apply filter_In in Hp. destruct Hp as [Hin Hne].
  split; [|apply H, Hin].
  destruct p; [discriminate | discriminate].
Qed.

Lemma join_space_re_split (s : pystr) : join_space (re_split_space s) = s.
Proof.
  induction s as [|c rest IH]; [reflexivity|].
  rewrite re_split_space_cons.
  destruct (re_split_space rest) as [|p ps] eqn:E.
  - exfalso. exact (split_from_nonnil _ _ _ E).
  - destruct (space =? c) eqn:Ec.
    + apply Z.eqb_eq in Ec. subst c.
      change (join_space ([] :: p :: ps)) with (space :: join_space (p :: ps)).
      rewrite IH. reflexivity.
    + rewrite <- IH. destruct ps; reflexivity.
Qed.

Lemma join_space_length_head (p : pystr) (ps : list pystr) :
  (List.length p <= List.length (join_space (p :: ps)))%nat.
Proof.
  destruct ps; simpl; [lia|]. rewrite length_app. lia.
Qed.

Lemma join_space_cons (p q : pystr) (ps : list pystr) :
  join_space (p :: q :: ps) = p ++ space :: join_space (q :: ps).
Proof. reflexivity. Qed.

Lemma remove_empty_shorter (ps : list pystr) :
  (List.length (join_space (remove_empty ps))
   <= List.length (join_space ps))%nat.
Proof.
  induction ps as [|p rest IH]; [simpl; lia|].
  destruct p as [|c p].
  - change (remove_empty ([] :: rest)) with (remove_empty rest).
    destruct rest as [|q rest']; [simpl; lia|].
    rewrite join_space_cons, length_app. cbn [List.length]. lia.
  - change (remove_empty ((c :: p) :: rest))
      with ((c :: p) :: remove_empty rest).
    destruct rest as [|q rest']; [simpl; lia|].
    rewrite join_space_cons.
    destruct (remove_empty (q :: rest')) as [|q' l'] eqn:E.
    + rewrite length_app. cbn [join_space List.length]. lia.
    + rewrite join_space_cons, !length_app. cbn [List.length] in *. lia.
Qed.

Lemma unspaced_word (p : pystr) : ~ In space p -> unspaced p = p.
Proof.
  induction p as [|c p IH]; intros H; [reflexivity|]. simpl.
  destruct (c =? space) eqn:E.
  - apply Z.eqb_eq in E. exfalso. apply H. left. congruence.
  - simpl. f_equal. apply IH. intros Hin. apply H. right. exact Hin.
Qed.

Lemma unspaced_join (ws : list pystr) :
  Forall (fun p => ~ In space p) ws ->
  unspaced (join_space ws) = List.concat ws.
Proof.
  induction 1 as [|w ws Hw _ IH]; [reflexivity|].
  destruct ws as [|w2 ws'].
  - simpl. rewrite app_nil_r. apply unspaced_word, Hw.
  - rewrite join_space_cons.
    assert (Happ : forall a b, unspaced (a ++ space :: b)
                               = unspaced a ++ unspaced b).
    { intros a b. unfold unspaced. rewrite filter_app. reflexivity. }
    rewrite Happ, (unspaced_word w Hw).
    change (List.concat (w :: w2 :: ws')) with (w ++ List.concat (w2 :: ws')).
    f_equal. exact IH.
Qed.

Lemma concat_remove_empty (ps : list pystr) :
  List.concat (remove_empty ps) = List.concat ps.
Proof.
  induction ps as [|p rest IH]; [reflexivity|].
  destruct p; simpl; [exact IH | rewrite <- IH; reflexivity].
Qed.

Lemma concat_re_split (s : pystr) : List.concat (re_split_space s) = unspaced s.
Proof.
  induction s as [|c rest IH]; [reflexivity|].
  rewrite re_split_space_cons.
  assert (Hu : unspaced (c :: rest)
               = if space =? c then unspaced rest else c :: unspaced rest).
  { unfold unspaced. cbn [filter]. rewrite (Z.eqb_sym c space).
    destruct (space =? c); reflexivity. }
  rewrite Hu. destruct (space =? c).
  - exact IH.
  - destruct (re_split_space rest) as [|p ps] eqn:E.
    + exfalso. exact (split_from_nonnil _ _ _ E).
    + rewrite <- IH. reflexivity.
Qed.

(** The text the function builds from the part of the message it keeps. *)
Lemma normalized (seg : pystr) :
  Forall word (remove_empty (re_split_space seg))
  /\ unspaced (join_space (remove_empty (re_split_space seg))) = unspaced seg
  /\ (List.length (join_space (remove_empty (re_split_space seg)))
      <= List.length seg)%nat.
Proof.
  split; [|split].
  - apply remove_empty_words, re_split_space_pieces.
  - rewrite unspaced_join.
    + rewrite concat_remove_empty. apply concat_re_split.
    + eapply Forall_impl; [|apply remove_empty_words, re_split_space_pieces].
      intros p [_ H]. exact H.
  - eapply Nat.le_trans; [apply remove_empty_shorter|].
    rewrite join_space_re_split. lia.
Qed.

Lemma word_app (p q : pystr) : ~ In space p -> word q -> word (p ++ q).
Proof.
  intros Hp [Hne Hq]. split.
  - destruct p; simpl; [exact Hne | discriminate].
  - intros H. apply in_app_or in H. tauto.
Qed.

Lemma firstn_no_space (n : nat) (p : pystr) :
  ~ In space p -> ~ In space (firstn n p).
Proof.
  intros H Hin. apply H.
  rewrite <- (firstn_skipn n p). apply in_or_app. left. exact Hin.
Qed.

(** A prefix of a tidy text, closed by a word, is tidy. *)
Lemma firstn_join_word (ws : list pystr) (w' : pystr) (n : nat) :
  Forall word ws -> word w' ->
  exists ws', ws' <> [] /\ Forall word ws' /\
              firstn n (join_space ws) ++ w' = join_space ws'.
Proof.
  intros Hws Hw'. revert n.
  induction Hws as [|w ws Hw Hall IH]; intros n.
  - exists [w']. rewrite firstn_nil. repeat split; [discriminate|].
    repeat constructor; apply Hw'.
  - destruct ws as [|w2 ws'].
    + exists [firstn n w ++ w']. repeat split; [discriminate|].
      repeat constructor; apply word_app;
        try exact Hw'; apply firstn_no_space, Hw.
    + rewrite join_space_cons, firstn_app.
      destruct (Nat.le_gt_cases n (List.length w)) as [Hle|Hgt].
      * replace (n - List.length w)%nat with O by lia.
        rewrite firstn_O, app_nil_r.
        exists [firstn n w ++ w']. repeat split; [discriminate|].
        repeat constructor; apply word_app;
          try exact Hw'; apply firstn_no_space, Hw.
      * rewrite firstn_all2 by lia.
        destruct (n - List.length w)%nat as [|m] eqn:Em; [lia|].
        rewrite firstn_cons.
        destruct (IH m) as [ws1 [Hne [Hall1 E]]].
        exists (w :: ws1). split; [discriminate|]. split.
        -- constructor; assumption.
        -- destruct ws1 as [|a ws1]; [contradiction|].
           rewrite join_space_cons, <- E, <- app_assoc. reflexivity.
Qed.

Lemma fence_word : word fence.
Proof.
  split; [discriminate|].
  unfold fence, space. intros [H|[H|[H|[]]]]; discriminate H.
Qed.

End TextFacts.

Module TextExtras.
Import Cog Spec Samples TextFacts.

(** X20: a string that [_process_text] returns is at most 1024 characters
    long and is made of non-empty words without spaces, separated by
    single spaces (so it neither starts nor ends with a space). When the
    function returns the list of words instead, these words joined by
    spaces are longer than 1024 characters and the number of fence words
    among them is even. *)
Theorem processed_text_is_bounded_and_tidy
    (content datetime_str : pystr) (text : option pystr) :
  (forall s, _process_text content datetime_str text = Ok (PStr s) ->
             (List.length s <= 1024)%nat /\ tidy s)
  /\ (forall lines,
        _process_text content datetime_str text = Ok (PList lines) ->
        Forall word lines /\
        (1024 < List.length (join_space lines))%nat /\
        Nat.odd (count fence lines) = false).
Proof.
  unfold _process_text.
  destruct text as [t|]; [|split; intros ? H; discriminate H].
  destruct (str_split content datetime_str) as [pieces|e];
    [|split; intros ? H; discriminate H].
  destruct (getitem1 pieces) as [seg|e];
    [|split; intros ? H; discriminate H].
  destruct (normalized seg) as [Hw _].
  set (ws := remove_empty (re_split_space seg)) in *.
  destruct (1024 <? List.length (join_space ws))%nat eqn:El.
  - apply Nat.ltb_lt in El.
    destruct (Nat.odd (count fence ws)) eqn:Eo.
    + split; [|intros ? H; discriminate H].
      intros s H.
      assert (E : s = firstn (List.length (firstn 1024 (join_space ws)) - 3)
                             (firstn 1024 (join_space ws)) ++ fence)
        by congruence.
      clear H. subst s. split.
      * rewrite length_app.
        pose proof (firstn_le_length
                      (List.length (firstn 1024 (join_space ws)) - 3)
                      (firstn 1024 (join_space ws))) as H1.
        pose proof (firstn_le_length 1024 (join_space ws)) as H2.
        change (List.length fence) with 3%nat. lia.
      * rewrite firstn_firstn.
        destruct (firstn_join_word ws fence
                    (Nat.min (List.length (firstn 1024 (join_space ws)) - 3)
                             1024) Hw fence_word) as [ws' [_ [Hall E]]].
        exists ws'. split; [exact Hall | exact E].
    + split; [intros ? H; discriminate H|].
      intros lines H. injection H as <-. repeat split; assumption.
  - apply Nat.ltb_ge in El.
    split; [|intros ? H; discriminate H].
    intros s H. injection H as <-. split; [exact El|].
    exists ws. split; [exact Hw | reflexivity].
Qed.

Lemma processed_text_is_bounded_and_tidy_witness :
  (List.length (codes "buy milk") <= 1024)%nat /\ tidy (codes "buy milk").
Proof.
  apply (proj1 (processed_text_is_bounded_and_tidy
                  (codes "!remindme tomorrow   buy  milk ") (codes "tomorrow")
                  (Some (codes "buy")))).
  reflexivity.
Defined.

(** X21: let the date string first occur in the message right after
    [before], be followed by [seg], and let [seg] run to the end of the
    message or to the next occurrence of the date string. If [seg] has at
    most 1024 characters, [_process_text] returns a string that has exactly
    the characters of [seg] other than spaces, in order, and is no longer
    than [seg]; what comes after a second occurrence of the date string is
    left out. *)
Theorem processed_text_follows_the_date
    (before datetime_str seg tail t : pystr) :
  datetime_str <> [] ->
  first_at datetime_str before (seg ++ tail) ->
  (tail = [] /\ ~ occurs datetime_str seg) \/
  (exists more, tail = datetime_str ++ more /\ first_at datetime_str seg more) ->
  (List.length seg <= 1024)%nat ->
  exists s,
    _process_text (before ++ datetime_str ++ seg ++ tail) datetime_str (Some t)
    = Ok (PStr s)
    /\ unspaced s = unspaced seg
    /\ (List.length s <= List.length seg)%nat
    /\ tidy s.
Proof.
  intros Hne Hfirst Htail Hlen.
  assert (Hpieces : exists rest,
            split_from datetime_str O (before ++ datetime_str ++ seg ++ tail)
            = before :: seg :: rest).
  { rewrite (split_from_first _ _ _ Hne Hfirst).
    destruct Htail as [[-> Hno]|[more [-> Hf]]].
    - rewrite app_nil_r.
      rewrite (proj2 (split_from_second datetime_str seg Hne) Hno).
      exists []. reflexivity.
    - rewrite (split_from_first _ _ _ Hne Hf).
      eexists. reflexivity. }
  destruct Hpieces as [rest Hp].
  destruct (normalized seg) as [Hw [Hu Hl]].
  exists (join_space (remove_empty (re_split_space seg))).
  split; [|split; [exact Hu|split; [exact Hl|]]].
  - unfold _process_text, str_split.
    destruct datetime_str as [|x d]; [contradiction|].
    rewrite Hp. cbn [getitem1 nth_error].
    replace (1024 <? List.length
                       (join_space (remove_empty (re_split_space seg))))%nat
      with false; [reflexivity|].
    symmetry. apply Nat.ltb_ge. lia.
  - exists (remove_empty (re_split_space seg)).
    split; [exact Hw | reflexivity].
Qed.

Lemma processed_text_follows_the_date_witness :
  exists s,
    _process_text (codes "!remind " ++ codes "1h" ++ codes " tea  at 5 "
                   ++ codes "1h" ++ codes " later")
                  (codes "1h") (Some [])
    = Ok (PStr s)
    /\ unspaced s = unspaced (codes " tea  at 5 ").
Proof.
  destruct (processed_text_follows_the_date (codes "!remind ") (codes "1h")
              (codes " tea  at 5 ") (codes "1h" ++ codes " later") [])
    as [s [H1 [H2 _]]].
  - discriminate.
  - intros a b H.
    destruct a as [|a0 [|a1 [|a2 [|a3 [|a4 [|a5 [|a6 [|a7 a]]]]]]]];
      try discriminate H; simpl; lia.
  - right. exists (codes " later"). split; [reflexivity|].
    intros a b H.
    destruct a as [|a0 [|a1 [|a2 [|a3 [|a4 [|a5 [|a6 [|a7 [|a8 [|a9 [|a10 a]]]]]]]]]]];
      try discriminate H; simpl; lia.
  - simpl. lia.
  - exists s. split; [exact H1 | exact H2].
Defined.

(** X22: without a text ([None]) the function returns [None] and reads
    nothing. With a text, it raises [ValueError] when the date string is
    empty, raises [IndexError] when the date string is not empty and does
    not occur in the message, and returns otherwise; what it returns does
    not depend on the text it was given, only on the message. *)
Theorem process_text_errors (content datetime_str : pystr) :
  _process_text content datetime_str None = Ok PNone
  /\ (forall t, datetime_str = [] ->
                _process_text content datetime_str (Some t) = Raise ValueError)
  /\ (forall t, datetime_str <> [] -> ~ occurs datetime_str content ->
                _process_text content datetime_str (Some t) = Raise IndexError)
  /\ (forall t, datetime_str <> [] -> occurs datetime_str content ->
                exists r, _process_text content datetime_str (Some t) = Ok r
                          /\ r <> PNone)
  /\ (forall t t', _process_text content datetime_str (Some t)
                   = _process_text content datetime_str (Some t')).
Proof.
  split; [reflexivity|]. split; [|split; [|split]].
  - intros t ->. reflexivity.
  - intros t Hne Hno. unfold _process_text, str_split.
    destruct datetime_str as [|x d]; [contradiction|].
    rewrite (proj2 (split_from_second (x :: d) content Hne) Hno).
    reflexivity.
  - intros t Hne Ho. unfold _process_text, str_split.
    destruct datetime_str as [|x d]; [contradiction|].
    destruct (proj1 (split_from_second (x :: d) content Hne) Ho)
      as [p [q [rest ->]]].
    cbn [getitem1 nth_error].
    destruct (1024 <? _)%nat; [destruct (Nat.odd _)|];
      eexists; (split; [reflexivity | discriminate]).
  - intros t t'. reflexivity.
Qed.

Lemma process_text_errors_witness :
  _process_text (codes "!remindme tomorrow tea") (codes "today") (Some [])
  = Raise IndexError
  /\ _process_text (codes "!remindme tomorrow tea") [] (Some [])
  = Raise ValueError.
Proof.
  pose proof (process_text_errors (codes "!remindme tomorrow tea")
                (codes "today")) as [_ [_ [H _]]].
  pose proof (process_text_errors (codes "!remindme tomorrow tea") [])
    as [_ [H' _]].
  split.
  - apply H; [discriminate|].
    intros [a [b E]]. revert E. clear.
    assert (Hlen : forall l : pystr, (List.length l <= 22)%nat ->
                     forall b0, codes "!remindme tomorrow tea"
                                <> l ++ codes "today" ++ b0).
    { intros l Hl b0.
      do 23 (destruct l as [|? l];
             [intros E; vm_compute in E; discriminate E|]).
      simpl in Hl. lia. }
    intros E.
    assert (Hl : (List.length a <= 22)%nat).
    { apply (f_equal (@List.length Z)) in E.
      rewrite !length_app in E.
      change (List.length (codes "!remindme tomorrow tea")) with 22%nat in E.
      lia. }
    exact (Hlen a Hl b E).
  - apply H'. reflexivity.
Defined.

End TextExtras.
